(** * Research assistant workflow: a shallow embedding of [app.py]

    The development follows the source file top-down: the message and
    state types, the [analyze_research_content] tool, the four node
    functions of [ResearchAssistantAgent._create_workflow], the graph that
    wires them, and [ResearchAssistantAgent.research].  The graph engine
    itself ([StateGraph], [add_messages], [MemorySaver]) is imported by
    the source and is described by the specification; the parts taken
    from there are marked as such. *)

From stdpp Require Import base strings gmap list pretty.

Local Open Scope string_scope.
Local Open Scope list_scope.

(** ** Python strings *)

Module Py.

Definition nl : string := String (Ascii.ascii_of_nat 10) EmptyString.
Definition dq : string := String (Ascii.ascii_of_nat 34) EmptyString.
Definition sq : string := String (Ascii.ascii_of_nat 39) EmptyString.

(** [sep.join(parts)] *)
Definition join (sep : string) (parts : list string) : string :=
  String.concat sep parts.

(** [s[:n]] *)
Definition slice_to (n : nat) (s : string) : string :=
  String.substring 0 n s.

(** [s.split('\n')]: never empty, one more piece than separators. *)
Fixpoint split_lines (s : string) : list string :=
  match s with
  | EmptyString => [EmptyString]
  | String c rest =>
      if Ascii.eqb c (Ascii.ascii_of_nat 10) then EmptyString :: split_lines rest
      else match split_lines rest with
           | piece :: pieces => String c piece :: pieces
           | [] => [String c EmptyString]
           end
  end.

(** [c.isspace()] on the ASCII range. *)
Definition isspace (c : Ascii.ascii) : bool :=
  let n := Ascii.nat_of_ascii c in
  (Nat.leb 9 n && Nat.leb n 13) || (Nat.leb 28 n && Nat.leb n 32).

Fixpoint lstrip (s : string) : string :=
  match s with
  | EmptyString => EmptyString
  | String c rest => if isspace c then lstrip rest else s
  end.

Definition rstrip (s : string) : string :=
  String.rev (lstrip (String.rev s)).

(** [s.strip()] *)
Definition strip (s : string) : string := rstrip (lstrip s).

(** [str(n)] for a non-negative integer. *)
Definition str_of_nat (n : nat) : string := pretty n.

End Py.

(** ** Messages *)

(** [SystemMessage], [HumanMessage] and [AIMessage] of the message
    library, each carrying its [content]. *)
Inductive message : Type :=
| SystemMessage (text : string)
| HumanMessage (text : string)
| AIMessage (text : string).

Definition content (m : message) : string :=
  match m with
  | SystemMessage t | HumanMessage t | AIMessage t => t
  end.

(** [isinstance(msg, HumanMessage)] *)
Definition is_HumanMessage (m : message) : bool :=
  match m with HumanMessage _ => true | _ => false end.

(** ** Dictionaries carried by the state *)

(** A raised exception, known by its text [str(e)]. *)
Record exn : Type := Exception { str : string }.

#[local] Set Warnings "-register-all".

(** A value of a search result: a [str], or any other object, known by
    what the program can observe of it: its text in an f-string, its
    truth value in an [if], and what taking a slice [v[:n]] of it does. *)
Inductive value : Type :=
| VStr (s : string)
| VObj (text : string) (truth : bool) (slice : nat → exn + value).

(** [None]. *)
Definition VNone : value :=
  VObj "None" false
    (λ _, inl (Exception ("'NoneType' object is not subscriptable"))).

(** The text an f-string makes of a value. *)
Definition py_str (v : value) : string :=
  match v with
  | VStr s => s
  | VObj text _ _ => text
  end.

(** The truth value of a value in an [if]. *)
Definition py_truthy (v : value) : bool :=
  match v with
  | VStr s => negb (String.eqb s EmptyString)
  | VObj _ truth _ => truth
  end.

(** [v[:n]] *)
Definition py_slice (n : nat) (v : value) : exn + value :=
  match v with
  | VStr s => inr (VStr (Py.slice_to n s))
  | VObj _ _ slice => slice n
  end.

(** A value stored in the [analysis] dictionary. *)
Inductive pyval : Type :=
| PStr (s : string)
| PInt (n : nat)
| PStrList (l : list string).

(** ** The state: [class AgentState(TypedDict)] *)

Record AgentState : Type := mkState {
  messages : list message;
  research_query : string;
  search_results : list (gmap string value);
  analysis : gmap string pyval;
  final_report : string
}.

(** The dictionary a node returns: any key may be missing. *)
Record PartialState : Type := mkPartial {
  u_messages : option (list message);
  u_research_query : option string;
  u_search_results : option (list (gmap string value));
  u_analysis : option (gmap string pyval);
  u_final_report : option string
}.

Definition no_update : PartialState := mkPartial None None None None None.

(** ** Merge rules *)

(** Modelled from the spec: [add_messages] is imported from the graph
    library and its body is not in the sources; the State Model gives the
    rule of [messages] as append-only, "new entries are concatenated to
    the end, never replacing prior ones". *)
Definition add_messages (current new : list message) : list message :=
  current ++ new.

(** Modelled from the spec: the rule the graph library applies to a key
    without annotation is not in the sources; the State Model gives it as
    overwrite. *)
Definition last_value {A : Type} (current new : A) : A := new.

(** One binary operator per key of the state. *)
Record Reducers : Type := mkReducers {
  r_messages : list message → list message → list message;
  r_research_query : string → string → string;
  r_search_results :
    list (gmap string value) → list (gmap string value) → list (gmap string value);
  r_analysis : gmap string pyval → gmap string pyval → gmap string pyval;
  r_final_report : string → string → string
}.

(** The annotations of [AgentState]: [messages] is
    [Annotated[list, add_messages]], the four other keys are plain. *)
Definition AgentState_reducers : Reducers := {|
  r_messages := add_messages;
  r_research_query := last_value;
  r_search_results := last_value;
  r_analysis := last_value;
  r_final_report := last_value
|}.

(** Modelled from the spec: how the graph library combines one key is
    not in the sources; in the State Model a key present in the update is
    combined with the key's rule and a missing key is passed through. *)
Definition combine {A : Type} (op : A → A → A) (current : A) (upd : option A) : A :=
  match upd with
  | Some new => op current new
  | None => current
  end.

(** Modelled from the spec: [merge(current, partial)] of the State Model,
    which the graph library performs after every node, key by key. *)
Definition merge_with (R : Reducers) (s : AgentState) (p : PartialState) : AgentState := {|
  messages := combine (r_messages R) (messages s) (u_messages p);
  research_query := combine (r_research_query R) (research_query s) (u_research_query p);
  search_results := combine (r_search_results R) (search_results s) (u_search_results p);
  analysis := combine (r_analysis R) (analysis s) (u_analysis p);
  final_report := combine (r_final_report R) (final_report s) (u_final_report p)
|}.

Definition merge : AgentState → PartialState → AgentState :=
  merge_with AgentState_reducers.

(** ** Exceptions, capabilities and the run-time state *)

(** [KeyError(key)]; its text is the quoted key. *)
Definition KeyError (key : string) : exn :=
  Exception (Py.sq +:+ key +:+ Py.sq).

(** One element of what the search tool returns: a dictionary, whatever
    its values, or anything else. *)
Inductive raw_result : Type :=
| raw_dict (d : gmap string value)
| raw_other.

(** What a run does that is visible from outside a node function. *)
Inductive event : Type :=
| ev_llm (input : list message)   (* self.llm.invoke(input) *)
| ev_search (query : string)      (* self.search_tool.invoke(query) *)
| ev_now                          (* datetime.now() *)
| ev_node (name : string).        (* the engine calls the node [name] *)

(** The external capabilities.  Each answer may depend on everything that
    happened before, so two calls with equal arguments may differ. *)
Record world : Type := mkWorld {
  w_llm : list event → list message → exn + string;
  w_search : list event → string → exn + list raw_result;
  w_timestamp : list event → string;   (* str(datetime.now().timestamp()) *)
  w_isoformat : list event → string    (* datetime.now().isoformat() *)
}.

(** A checkpoint, kept under its thread identifier. *)
Record Checkpoint : Type := mkCheckpoint {
  ck_state : AgentState;
  ck_stepIndex : nat
}.

(** The mutable state of the process: what happened so far and the
    contents of the [MemorySaver] of the compiled workflow. *)
Record machine : Type := mkMachine {
  trace : list event;
  memory : gmap string Checkpoint
}.

(** Computations that read and extend the machine state and may raise;
    the machine state survives an exception. *)
Definition M (A : Type) : Type := machine → (exn + A) * machine.

Definition ret {A : Type} (a : A) : M A := λ m, (inr a, m).

Definition bind {A B : Type} (c : M A) (k : A → M B) : M B :=
  λ m, match c m with
       | (inr a, m') => k a m'
       | (inl e, m') => (inl e, m')
       end.

Definition raise {A : Type} (e : exn) : M A := λ m, (inl e, m).

(** [try: body except Exception as e: handler] *)
Definition try_except {A : Type} (body : M A) (handler : exn → M A) : M A :=
  λ m, match body m with
       | (inr a, m') => (inr a, m')
       | (inl e, m') => handler e m'
       end.

Definition emit (ev : event) : M unit :=
  λ m, (inr tt, mkMachine (trace m ++ [ev]) (memory m)).

Notation "'let*' x ':=' c 'in' k" := (bind c (λ x, k))
  (at level 10, x name, c at level 100, k at level 200, only parsing).

Fixpoint mapM {A B : Type} (f : A → M B) (l : list A) : M (list B) :=
  match l with
  | [] => ret []
  | a :: rest => let* b := f a in let* bs := mapM f rest in ret (b :: bs)
  end.

(** [d[key]] *)
Definition getitem (d : gmap string value) (key : string) : M value :=
  match d !! key with
  | Some v => ret v
  | None => raise (KeyError key)
  end.

(** [v[:n]] inside a node function. *)
Definition getslice (n : nat) (v : value) : M value :=
  match py_slice n v with
  | inr part => ret part
  | inl e => raise e
  end.

(** [d.get(key, default)] *)
Definition get_default (d : gmap string value) (key : string) (dflt : value) : value :=
  default dflt (d !! key).

(** Names of the nodes the engine called, in order. *)
Definition invoked_steps (t : list event) : list string :=
  omap (λ ev, match ev with ev_node n => Some n | _ => None end) t.

(** The arguments of the calls made to the language model, in order. *)
Definition llm_calls (t : list event) : list (list message) :=
  omap (λ ev, match ev with ev_llm i => Some i | _ => None end) t.

(** ** The checkpoint store *)

(** Modelled from the spec: [MemorySaver] is imported from the graph
    library; [put(threadId, state, stepIndex)] of the Checkpoint Store
    overwrites any prior snapshot of the thread. *)
Definition put (threadId : string) (s : AgentState) (stepIndex : nat) : M unit :=
  λ m, (inr tt, mkMachine (trace m) (<[threadId := mkCheckpoint s stepIndex]> (memory m))).

(** Modelled from the spec: [get(threadId)] of the Checkpoint Store, the
    snapshot of the thread or NotFound. *)
Definition get (threadId : string) (m : machine) : option Checkpoint :=
  memory m !! threadId.

(** ** The literals of the node functions *)

Definition indent : string := "            ".

(** The [content] of the planner's system message, line by line. *)
Definition planner_instructions : string :=
  Py.join Py.nl
    [ EmptyString;
      indent +:+ "You are a research planning assistant. Analyze the user's request and create a research plan.";
      indent +:+ "Break down complex topics into specific, searchable queries.";
      indent +:+ "Respond with a clear research strategy.";
      indent ].

(** The template handed to [ChatPromptTemplate.from_template]. *)
Definition report_template : string :=
  Py.join Py.nl
    [ EmptyString;
      indent +:+ "Based on the research query " +:+ Py.dq +:+ "{query}" +:+ Py.dq
        +:+ " and the following information, create a comprehensive research report:";
      indent;
      indent +:+ "Search Results Summary:";
      indent +:+ "{search_summary}";
      indent;
      indent +:+ "Analysis Results:";
      indent +:+ "{analysis}";
      indent;
      indent +:+ "Please provide:";
      indent +:+ "1. Executive Summary";
      indent +:+ "2. Key Findings (with bullet points)";
      indent +:+ "3. Detailed Analysis";
      indent +:+ "4. Sources Used";
      indent +:+ "5. Recommendations";
      indent;
      indent +:+ "Format the report in a clear, professional manner with proper sections.";
      indent ].

(** ** The agent *)

Section Nodes.

(** The capabilities the agent was built with. *)
Variable W : world.

(** Two library functions of which only the call is in the sources:
    [json.dumps(d, indent=2)] and
    [ChatPromptTemplate.from_template(t).format(k=v, ...)]. *)
Variable json_dumps : gmap string pyval → string.
Variable template_format : string → list (string * string) → string.

(** [self.llm.invoke(input)]: answers with an [AIMessage] or raises. *)
Definition llm_invoke (input : list message) : M message :=
  λ m, (match w_llm W (trace m) input with
        | inr text => inr (AIMessage text)
        | inl e => inl e
        end,
        mkMachine (trace m ++ [ev_llm input]) (memory m)).

(** [self.search_tool.invoke(query)] *)
Definition search_tool_invoke (query : string) : M (list raw_result) :=
  λ m, (w_search W (trace m) query,
        mkMachine (trace m ++ [ev_search query]) (memory m)).

(** [datetime.now().isoformat()] *)
Definition now_isoformat : M string :=
  λ m, (inr (w_isoformat W (trace m)), mkMachine (trace m ++ [ev_now]) (memory m)).

(** [datetime.now().timestamp()], as the text an f-string makes of it. *)
Definition now_timestamp : M string :=
  λ m, (inr (w_timestamp W (trace m)), mkMachine (trace m ++ [ev_now]) (memory m)).

(** *** [analyze_research_content] *)

Definition key_points_of (content : string) : list string :=
  let lines := Py.split_lines content in
  List.filter
    (λ line, negb (String.eqb line EmptyString) && Nat.ltb 50 (String.length line))
    (Py.strip <$> lines).

Definition analyze_research_content (content topic : string)
  : M (gmap string pyval) :=
  let key_points := key_points_of content in
  let* stamp := now_isoformat in
  ret {[ "topic" := PStr topic;
         "content_length" := PInt (String.length content);
         "key_points" := PStrList (take 5 key_points);
         "analysis_timestamp" := PStr stamp ]}.

(** *** [research_planner] *)

Definition research_planner (state : AgentState) : M PartialState :=
  let messages := messages state in
  let system_message := SystemMessage planner_instructions in
  let* response := llm_invoke ([system_message] ++ messages) in
  let user_message :=
    match List.filter is_HumanMessage messages with
    | msg :: _ => content msg
    | [] => EmptyString
    end in
  ret {| u_messages := Some [response];
         u_research_query := Some user_message;
         u_search_results := None;
         u_analysis := None;
         u_final_report := None |}.

(** *** [web_searcher] *)

(** The body of the [for] loop: one more formatted result, or nothing. *)
Definition format_step (formatted_results : list (gmap string value))
    (result : raw_result) : list (gmap string value) :=
  match result with
  | raw_dict d =>
      formatted_results ++
        [ {[ "title" := get_default d "title" (VStr EmptyString);
             "content" := get_default d "content" (VStr EmptyString);
             "url" := get_default d "url" (VStr EmptyString) ]} ]
  | raw_other => formatted_results
  end.

Definition format_results (search_results : list raw_result)
  : list (gmap string value) :=
  fold_left format_step search_results [].

Definition web_searcher (state : AgentState) : M PartialState :=
  let query := research_query state in
  try_except
    (let* search_results := search_tool_invoke query in
     let formatted_results := format_results search_results in
     let search_summary :=
       "Found " +:+ Py.str_of_nat (length formatted_results)
                +:+ " relevant sources for: " +:+ query in
     ret {| u_messages := Some [AIMessage search_summary];
            u_research_query := None;
            u_search_results := Some formatted_results;
            u_analysis := None;
            u_final_report := None |})
    (λ e,
     ret {| u_messages := Some [AIMessage ("Search error: " +:+ str e)];
            u_research_query := None;
            u_search_results := Some [];
            u_analysis := None;
            u_final_report := None |}).

(** *** [content_analyzer] *)

Definition title_and_content (result : gmap string value) : M string :=
  let* title := getitem result "title" in
  let* body := getitem result "content" in
  ret ("Title: " +:+ py_str title +:+ Py.nl +:+ "Content: " +:+ py_str body).

Definition content_analyzer (state : AgentState) : M PartialState :=
  let search_results := search_results state in
  let query := research_query state in
  match search_results with
  | [] =>
      ret {| u_messages := Some [AIMessage "No search results to analyze."];
             u_research_query := None;
             u_search_results := None;
             u_analysis := Some ∅;
             u_final_report := None |}
  | _ :: _ =>
      let* pieces := mapM title_and_content search_results in
      let combined_content := Py.join (Py.nl +:+ Py.nl) pieces in
      let* analysis_result := analyze_research_content combined_content query in
      ret {| u_messages := Some [AIMessage "Content analysis completed."];
             u_research_query := None;
             u_search_results := None;
             u_analysis := Some analysis_result;
             u_final_report := None |}
  end.

(** *** [report_generator] *)

Definition summary_line (result : gmap string value) : M string :=
  let* title := getitem result "title" in
  let* body := getitem result "content" in
  let* excerpt := getslice 200 body in
  ret ("• " +:+ py_str title +:+ ": " +:+ py_str excerpt +:+ "...").

Definition report_generator (state : AgentState) : M PartialState :=
  let search_results := search_results state in
  let analysis := analysis state in
  let query := research_query state in
  let* lines := mapM summary_line (take 3 search_results) in
  let search_summary := Py.join Py.nl lines in
  let analysis_text := json_dumps analysis in
  let formatted_prompt :=
    template_format report_template
      [ ("query", query); ("search_summary", search_summary);
        ("analysis", analysis_text) ] in
  let* report_response := llm_invoke [HumanMessage formatted_prompt] in
  ret {| u_messages := Some [report_response];
         u_research_query := None;
         u_search_results := None;
         u_analysis := None;
         u_final_report := Some (content report_response) |}.

End Nodes.

(** ** The graph engine

    [StateGraph], its [compile] and the [invoke] of the compiled graph are
    imported from the graph library.  The definitions below follow the
    Graph Definition, the Graph Compiler and the Executor of the
    specification. *)

Inductive vertex : Type :=
| START
| END
| node (name : string).

#[global] Instance vertex_eq_dec : EqDecision vertex.
Proof. solve_decision. Defined.

Record Step : Type := mkStep {
  step_name : string;
  handler : AgentState → M PartialState
}.

Record StateGraph : Type := mkGraph {
  nodes : list Step;
  edges : list (vertex * vertex)
}.

Inductive GraphDefinitionError : Type :=
| duplicate_step_name
| undefined_step
| no_path_to_end
| unreachable_step.

(** A compiled graph: the steps in the order of the walk. *)
Definition CompiledGraph : Type := list Step.

Definition step_names (steps : list Step) : list string := step_name <$> steps.

Definition find_step (steps : list Step) (name : string) : option Step :=
  List.find (λ st, String.eqb (step_name st) name) steps.

(** The targets of the edges that leave [v]. *)
Definition successors (es : list (vertex * vertex)) (v : vertex) : list vertex :=
  snd <$> List.filter (λ e, bool_decide (e.1 = v)) es.

Definition defined (steps : list Step) (v : vertex) : bool :=
  match v with
  | node name => bool_decide (name ∈ step_names steps)
  | START | END => true
  end.

(** Modelled from the spec: the walk of the Graph Compiler is not in the
    sources; it follows the single outgoing edge from [v] until [END]. *)
Fixpoint path_from (fuel : nat) (g : StateGraph) (v : vertex) : option (list Step) :=
  match fuel with
  | 0 => None
  | S fuel' =>
      match successors (edges g) v with
      | [END] => Some []
      | [node name] =>
          match find_step (nodes g) name, path_from fuel' g (node name) with
          | Some st, Some rest => Some (st :: rest)
          | _, _ => None
          end
      | _ => None
      end
  end.

(** Modelled from the spec: [compile] of the Graph Compiler, which fails
    when a step name is duplicated, an edge references an undefined step,
    there is no path from [START] to [END], or a step is unreachable. *)
Definition compile (g : StateGraph) : GraphDefinitionError + CompiledGraph :=
  if negb (bool_decide (NoDup (step_names (nodes g)))) then inl duplicate_step_name
  else if negb (forallb (λ e, defined (nodes g) e.1 && defined (nodes g) e.2) (edges g))
  then inl undefined_step
  else match path_from (S (length (nodes g))) g START with
       | None => inl no_path_to_end
       | Some steps =>
           if forallb (λ st, bool_decide (step_name st ∈ step_names steps)) (nodes g)
           then inr steps
           else inl unreachable_step
       end.

(** Modelled from the spec: the Executor of the graph library is not in
    the sources.  It calls the handler on the committed state, merges the
    update, writes the checkpoint and goes on.  A handler that raises ends
    the walk at once, nothing being merged or written for the failing
    step; the error leaves as the exception [research] catches. *)
Fixpoint run_from (steps : list Step) (stepIndex : nat) (threadId : string)
    (s : AgentState) : M AgentState :=
  match steps with
  | [] => ret s
  | st :: rest =>
      let* _ := emit (ev_node (step_name st)) in
      let* p := handler st s in
      let s' := merge s p in
      let* _ := put threadId s' (S stepIndex) in
      run_from rest (S stepIndex) threadId s'
  end.

(** Modelled from the spec: [run(graph, initialState, threadId)] of the
    Executor, started at [START] with the caller's state. *)
Definition invoke (g : CompiledGraph) (initial_state : AgentState)
    (threadId : string) : M AgentState :=
  run_from g 0 threadId initial_state.

(** ** [_create_workflow] and [research] *)

(** The dictionary [research] returns: the final state, or the three keys
    of the [except] branch. *)
Record RunResult : Type := mkResult {
  error : option string;
  res_messages : option (list message);
  res_research_query : option string;
  res_search_results : option (list (gmap string value));
  res_analysis : option (gmap string pyval);
  res_final_report : option string
}.

Definition of_state (s : AgentState) : RunResult := {|
  error := None;
  res_messages := Some (messages s);
  res_research_query := Some (research_query s);
  res_search_results := Some (search_results s);
  res_analysis := Some (analysis s);
  res_final_report := Some (final_report s)
|}.

Section ResearchAssistantAgent.

Variable W : world.
Variable json_dumps : gmap string pyval → string.
Variable template_format : string → list (string * string) → string.

Definition planner : Step := mkStep "planner" (research_planner W).
Definition searcher : Step := mkStep "searcher" (web_searcher W).
Definition analyzer : Step := mkStep "analyzer" (content_analyzer W).
Definition reporter : Step :=
  mkStep "reporter" (report_generator W json_dumps template_format).

(** The [add_node] and [add_edge] calls. *)
Definition workflow_graph : StateGraph := {|
  nodes := [planner; searcher; analyzer; reporter];
  edges := [ (START, node "planner");
             (node "planner", node "searcher");
             (node "searcher", node "analyzer");
             (node "analyzer", node "reporter");
             (node "reporter", END) ]
|}.

Definition _create_workflow : GraphDefinitionError + CompiledGraph :=
  compile workflow_graph.

Definition initial_state (query : string) : AgentState := {|
  messages := [HumanMessage query];
  research_query := query;
  search_results := [];
  analysis := ∅;
  final_report := EmptyString
|}.

(** The dictionary of the [except] branch. *)
Definition failure (e : exn) : RunResult := {|
  error := Some (str e);
  res_messages := Some [AIMessage ("Research failed: " +:+ str e)];
  res_research_query := None;
  res_search_results := None;
  res_analysis := None;
  res_final_report := Some ("Error occurred during research: " +:+ str e)
|}.

(** [self.workflow.invoke]: [self.workflow] is what [_create_workflow]
    returned when the agent was built. *)
Definition workflow_invoke (initial : AgentState) (threadId : string)
  : M AgentState :=
  match _create_workflow with
  | inr g => invoke g initial threadId
  | inl _ => raise (Exception "GraphDefinitionError")
  end.

Definition research (query : string) : M RunResult :=
  let initial := initial_state query in
  let* stamp := now_timestamp W in
  let thread_id := "research_" +:+ stamp in
  try_except
    (let* final_state := workflow_invoke initial thread_id in
     ret (of_state final_state))
    (λ e, ret (failure e)).

End ResearchAssistantAgent.

(** ** [validate_api_keys] *)

(** The dictionary [validation_results]. *)
Record ValidationResults : Type := mkValidation {
  groq_valid : bool;
  tavily_valid : bool;
  groq_error : string;
  tavily_error : string
}.

Section Validation.

(** The two test clients, each built from its own key.  [ChatGroq key]
    is what the constructor [ChatGroq(groq_api_key=key, ...)] does: it
    raises, or returns a client, known by what its [invoke] answers;
    likewise [TavilySearchResults key]. *)
Variable ChatGroq : string → exn + (list event → list message → exn + string).
Variable TavilySearchResults :
  string → exn + (list event → string → exn + list raw_result).

(** [test_llm = ChatGroq(...)]: no call is made by the constructor. *)
Definition new_test_llm (groq_key : string)
  : M (list event → list message → exn + string) :=
  λ m, (ChatGroq groq_key, m).

(** [test_llm.invoke(input)] *)
Definition test_llm_invoke (test_llm : list event → list message → exn + string)
    (input : list message) : M string :=
  λ m, (test_llm (trace m) input,
        mkMachine (trace m ++ [ev_llm input]) (memory m)).

(** [test_search = TavilySearchResults(...)] *)
Definition new_test_search (tavily_key : string)
  : M (list event → string → exn + list raw_result) :=
  λ m, (TavilySearchResults tavily_key, m).

(** [test_search.invoke(query)] *)
Definition test_search_invoke
    (test_search : list event → string → exn + list raw_result)
    (query : string) : M (list raw_result) :=
  λ m, (test_search (trace m) query,
        mkMachine (trace m ++ [ev_search query]) (memory m)).

Definition validate_api_keys (groq_key tavily_key : string) : M ValidationResults :=
  let validation_results := mkValidation false false EmptyString EmptyString in
  let* validation_results :=
    try_except
      (let* test_llm := new_test_llm groq_key in
       let* test_response := test_llm_invoke test_llm [HumanMessage "Hi"] in
       ret (mkValidation true (tavily_valid validation_results)
              (groq_error validation_results) (tavily_error validation_results)))
      (λ e,
       ret (mkValidation (groq_valid validation_results)
              (tavily_valid validation_results) (str e)
              (tavily_error validation_results))) in
  let* validation_results :=
    try_except
      (let* test_search := new_test_search tavily_key in
       let* _ := test_search_invoke test_search "test" in
       ret (mkValidation (groq_valid validation_results) true
              (groq_error validation_results) (tavily_error validation_results)))
      (λ e,
       ret (mkValidation (groq_valid validation_results)
              (tavily_valid validation_results) (groq_error validation_results)
              (str e))) in
  ret validation_results.

End Validation.

(** ** The results display of [main] *)

(** What the page shows: the calls [st.error], [st.markdown] and
    [st.header], and an [st.expander] with what is shown inside it. *)
Inductive widget : Type :=
| st_error (body : string)
| st_markdown (body : string)
| st_header (body : string)
| st_expander (label : string) (expanded : bool) (inside : list widget).

(** The truth value of a text in an [if]. *)
Definition truthy (s : string) : bool := negb (String.eqb s EmptyString).

(** What a part of the script put on the page, and the exception that
    ended it, if one was raised. *)
Definition shown : Type := list widget * option exn.

Definition show (ws : list widget) : shown := (ws, None).

(** One part of the script after another: the second is not run when the
    first raised. *)
Definition and_then (first second : shown) : shown :=
  match first with
  | (ws, None) => (ws ++ second.1, second.2)
  | (ws, Some e) => (ws, Some e)
  end.

(** The body of the loop over [result['search_results']]; [j] counts
    from 1. *)
Definition show_source (j : nat) (source : gmap string value) : shown :=
  and_then
    (show [st_markdown ("**" +:+ Py.str_of_nat j +:+ ". "
                        +:+ py_str (get_default source "title" (VStr "Untitled"))
                        +:+ "**")])
    (and_then
       match source !! "url" with
       | Some url =>
           if py_truthy url
           then show [st_markdown ("🔗 [Source Link](" +:+ py_str url +:+ ")")]
           else show []
       | None => show []
       end
       (and_then
          match source !! "content" with
          | Some body =>
              if py_truthy body
              then match py_slice 300 body with
                   | inr part => show [st_markdown (py_str part +:+ "...")]
                   | inl e => ([], Some e)
                   end
              else show []
          | None => show []
          end
          (show [st_markdown "---"]))).

(** The loop over [enumerate(result['search_results'], 1)], from [j] on. *)
Fixpoint show_sources (j : nat) (sources : list (gmap string value)) : shown :=
  match sources with
  | [] => show []
  | source :: others => and_then (show_source j source) (show_sources (S j) others)
  end.

(** What is shown for one result, inside its expander. *)
Definition show_result (result : RunResult) : shown :=
  match error result with
  | Some err => show [st_error ("Research failed: " +:+ err)]
  | None =>
      and_then
        match res_final_report result with
        | Some report =>
            if truthy report
            then show [st_markdown "### Research Report"; st_markdown report]
            else show []
        | None => show []
        end
        match res_search_results result with
        | Some (first :: others) =>
            and_then (show [st_markdown "### Sources"])
              (show_sources 1 (first :: others))
        | Some [] | None => show []
        end
  end.

(** One element of [st.session_state.research_history]. *)
Record HistoryEntry : Type := mkEntry {
  h_query : string;
  h_result : RunResult;
  h_timestamp : string
}.

(** The expander of one entry; [i] is its position on the page. *)
Definition show_entry (i : nat) (research : HistoryEntry) : shown :=
  ([st_expander
      ("📊 Research: " +:+ Py.slice_to 50 (h_query research)
       +:+ "... (" +:+ h_timestamp research +:+ ")")
      (bool_decide (i = 0))
      (show_result (h_result research)).1],
   (show_result (h_result research)).2).

(** The loop over [enumerate(reversed(research_history))], from [i] on. *)
Fixpoint show_entries (i : nat) (entries : list HistoryEntry) : shown :=
  match entries with
  | [] => show []
  | research :: others => and_then (show_entry i research) (show_entries (S i) others)
  end.

(** The "Research Results" part of the page. *)
Definition show_history (research_history : list HistoryEntry) : shown :=
  match research_history with
  | [] => show []
  | _ :: _ =>
      and_then (show [st_header "Research Results"])
        (show_entries 0 (reverse research_history))
  end.

(** ** Vocabulary of the statements *)

(** An update that carries the [messages] key only. *)
Definition messages_only (new : list message) : PartialState :=
  mkPartial (Some new) None None None None.

(** The machine after some more events, with the same checkpoints. *)
Definition log_events (m : machine) (evs : list event) : machine :=
  mkMachine (trace m ++ evs) (memory m).

(** A search result from which [result['title']] and [result['content']]
    can be read. *)
Definition readable (result : gmap string value) : Prop :=
  is_Some (result !! "title") ∧ is_Some (result !! "content").

(** A search result of which the report step can make a summary line: it
    has a title, and a content of which the first 200 can be taken. *)
Definition summarizable (result : gmap string value) : Prop :=
  is_Some (result !! "title")
  ∧ ∃ body part, result !! "content" = Some body ∧ py_slice 200 body = inr part.

(** A dictionary whose values under [title], [content] and [url], where
    present, are texts. *)
Definition text_valued (d : gmap string value) : Prop :=
  ∀ key v, key ∈ ["title"; "content"; "url"] → d !! key = Some v →
           ∃ text, v = VStr text.

(** The dictionaries among the raw results, in their order. *)
Definition dicts_of (raw : list raw_result) : list (gmap string value) :=
  omap (λ r, match r with raw_dict d => Some d | raw_other => None end) raw.

(** The text of [v[:n]], empty when the slice raises. *)
Definition excerpt_of (n : nat) (v : value) : string :=
  match py_slice n v with
  | inr part => py_str part
  | inl _ => EmptyString
  end.

(** The line of the search summary a result contributes. *)
Definition bullet (result : gmap string value) : string :=
  "• " +:+ py_str (get_default result "title" (VStr EmptyString)) +:+ ": "
       +:+ excerpt_of 200 (get_default result "content" (VStr EmptyString))
       +:+ "...".

(** The machine after [put]. *)
Definition checkpointed (threadId : string) (s : AgentState) (stepIndex : nat)
    (m : machine) : machine :=
  mkMachine (trace m) (<[threadId := mkCheckpoint s stepIndex]> (memory m)).

(** The events a computation added to the trace [before]. *)
Definition new_events (before : machine) (after : machine) : list event :=
  drop (length (trace before)) (trace after).

(** A computation that neither reads nor writes the checkpoints: its
    outcome and its events are the same whatever the store holds, and the
    store is handed back as it was. *)
Definition keeps_memory {A : Type} (c : M A) : Prop :=
  ∀ t, ∃ r t', ∀ mem, c (mkMachine t mem) = (r, mkMachine t' mem).

(** A computation that does not read the checkpoints and writes at most
    the one of [threadId]. *)
Definition writes_only {A : Type} (threadId : string) (c : M A) : Prop :=
  ∀ t, ∃ r t' (written : option Checkpoint), ∀ mem,
    c (mkMachine t mem)
    = (r, mkMachine t' match written with
                       | Some ck => <[threadId := ck]> mem
                       | None => mem
                       end).

(** "Every run calls the four steps once each, in order." *)
Definition every_step_once (W : world) (json_dumps : gmap string pyval → string)
    (template_format : string → list (string * string) → string)
    (query : string) (m : machine) : Prop :=
  invoked_steps (new_events m (research W json_dumps template_format query m).2)
  = ["planner"; "searcher"; "analyzer"; "reporter"].

(** "The result of a run carries the search results and the analysis of
    the last checkpoint of its thread." *)
Definition returns_committed_state (W : world)
    (json_dumps : gmap string pyval → string)
    (template_format : string → list (string * string) → string)
    (query : string) (m : machine) : Prop :=
  ∃ r ck,
    (research W json_dumps template_format query m).1 = inr r
    ∧ get ("research_" +:+ w_timestamp W (trace m))
        (research W json_dumps template_format query m).2 = Some ck
    ∧ res_search_results r = Some (search_results (ck_state ck))
    ∧ res_analysis r = Some (analysis (ck_state ck)).

(** "The report of a run reflects the absence of search data": it is not
    the report of the run in which the search found something. *)
Definition report_reflects_absence (without_data with_data : RunResult) : Prop :=
  res_final_report without_data ≠ res_final_report with_data.

(** "The report step calls the completion capability exactly once." *)
Definition calls_completion_once (W : world)
    (json_dumps : gmap string pyval → string)
    (template_format : string → list (string * string) → string)
    (s : AgentState) (m : machine) : Prop :=
  ∃ input,
    llm_calls (new_events m (report_generator W json_dumps template_format s m).2)
    = [input].

(** "Every search result has a text under title, content and url." *)
Definition string_fields (results : list (gmap string value)) : Prop :=
  Forall (λ r : gmap string value,
            ∀ key, key ∈ ["title"; "content"; "url"] →
                   ∃ text, r !! key = Some (VStr text))
    results.

(** Whether a test call went through, and the text of its exception
    otherwise. *)
Definition answered {A : Type} (r : exn + A) : bool :=
  match r with
  | inr _ => true
  | inl _ => false
  end.

Definition error_text {A : Type} (r : exn + A) : string :=
  match r with
  | inr _ => EmptyString
  | inl e => str e
  end.

(** A text that does not begin with white space. *)
Definition trimmed_left (s : string) : Prop :=
  match s with
  | String c _ => Py.isspace c = false
  | EmptyString => True
  end.

(** ** Sample inputs *)

Module Sample.

Definition dumps (a : gmap string pyval) : string :=
  if decide (a = ∅) then "{}" else "{...}".

Definition format (template : string) (kwargs : list (string * string)) : string :=
  template +:+ Py.join "|" (snd <$> kwargs).

(** A number, as a search result may carry under [score]. *)
Definition number (text : string) : value :=
  VObj text true (λ _, inl (Exception "'float' object is not subscriptable")).

Definition two_results : list raw_result :=
  [ raw_dict {[ "title" := VStr "T1"; "content" := VStr "C1"; "url" := VStr "U1";
                "score" := number "0.9" ]};
    raw_other;
    raw_dict {[ "content" := VStr "C2" ]} ].

Definition planning (input : list message) : bool :=
  match input with SystemMessage _ :: _ => true | _ => false end.

(** Every capability answers. *)
Definition healthy : world := {|
  w_llm := λ _ input, if planning input then inr "PLAN" else inr "REPORT_X";
  w_search := λ _ _, inr two_results;
  w_timestamp := λ _, "1700000000.5";
  w_isoformat := λ _, "2024-01-01T00:00:00"
|}.

(** The language model answers the planner and fails afterwards. *)
Definition no_report : world := {|
  w_llm := λ _ input,
    if planning input then inr "PLAN" else inl (Exception "invalid api key");
  w_search := λ _ _, inr two_results;
  w_timestamp := λ _, "1700000000.5";
  w_isoformat := λ _, "2024-01-01T00:00:00"
|}.

(** The language model always fails. *)
Definition no_llm : world := {|
  w_llm := λ _ _, inl (Exception "invalid api key");
  w_search := λ _ _, inr two_results;
  w_timestamp := λ _, "1700000000.5";
  w_isoformat := λ _, "2024-01-01T00:00:00"
|}.

(** The search tool fails. *)
Definition no_search : world := {|
  w_llm := λ _ input, if planning input then inr "PLAN" else inr "REPORT_X";
  w_search := λ _ _, inl (Exception "connection refused");
  w_timestamp := λ _, "1700000000.5";
  w_isoformat := λ _, "2024-01-01T00:00:00"
|}.

(** The search tool finds one result, whose content is [None]. *)
Definition null_content : world := {|
  w_llm := λ _ input, if planning input then inr "PLAN" else inr "REPORT_X";
  w_search := λ _ _,
    inr [raw_dict {[ "title" := VStr "T1"; "content" := VNone; "url" := VStr "U1" ]}];
  w_timestamp := λ _, "1700000000.5";
  w_isoformat := λ _, "2024-01-01T00:00:00"
|}.

Definition fresh : machine := mkMachine [] ∅.

Definition state : AgentState := {|
  messages := [HumanMessage "q"; AIMessage "PLAN"];
  research_query := "q";
  search_results :=
    [ {[ "title" := VStr "T1"; "content" := VStr "C1"; "url" := VStr "U1" ]} ];
  analysis := ∅;
  final_report := EmptyString
|}.

End Sample.

(** * The helpers on concrete inputs *)

Example split_lines_trailing :
  Py.split_lines ("ab" +:+ Py.nl +:+ "c" +:+ Py.nl) = ["ab"; "c"; EmptyString].
Proof. reflexivity. Qed.

Example strip_both_ends :
  Py.strip ("  a b " +:+ Py.nl) = "a b".
Proof. reflexivity. Qed.

Example slice_to_short : Py.slice_to 200 "C1" = "C1".
Proof. reflexivity. Qed.

Example workflow_compiles :
  match _create_workflow Sample.healthy Sample.dumps Sample.format with
  | inr g => step_names g
  | inl _ => []
  end = ["planner"; "searcher"; "analyzer"; "reporter"].
Proof. reflexivity. Qed.

(** The scenario of the specification: two search results, a model that
    answers the report prompt with a fixed text. *)
Example healthy_run :
  ∃ r, (research Sample.healthy Sample.dumps Sample.format "q" Sample.fresh).1 = inr r
       ∧ error r = None
       ∧ res_final_report r = Some "REPORT_X"
       ∧ res_messages r
         = Some [HumanMessage "q"; AIMessage "PLAN";
                 AIMessage "Found 2 relevant sources for: q";
                 AIMessage "Content analysis completed."; AIMessage "REPORT_X"]
       ∧ (map_to_list <$> default [] (res_search_results r))
         = [ [("content", VStr "C1"); ("url", VStr "U1"); ("title", VStr "T1")];
             [("content", VStr "C2"); ("url", VStr EmptyString);
              ("title", VStr EmptyString)] ].
Proof. eexists. split; [vm_compute; reflexivity|]. by vm_compute. Qed.

(** * The State Model *)

Lemma combine_last_value {A : Type} (current : A) (upd : option A) :
  combine last_value current upd = default current upd.
Proof. by destruct upd. Qed.

(** C2: [merge] combines every key present in the update with the rule
    registered for it, appending for [messages] and overwriting for the
    four other keys, and passes a missing key through; the registry holds
    one rule per key. *)
Theorem merge_by_registered_rule (s : AgentState) (p : PartialState) :
  (r_messages AgentState_reducers = add_messages
   ∧ r_research_query AgentState_reducers = last_value
   ∧ r_search_results AgentState_reducers = last_value
   ∧ r_analysis AgentState_reducers = last_value
   ∧ r_final_report AgentState_reducers = last_value)
  ∧ messages (merge s p)
    = match u_messages p with
      | Some new => messages s ++ new
      | None => messages s
      end
  ∧ research_query (merge s p) = default (research_query s) (u_research_query p)
  ∧ search_results (merge s p) = default (search_results s) (u_search_results p)
  ∧ analysis (merge s p) = default (analysis s) (u_analysis p)
  ∧ final_report (merge s p) = default (final_report s) (u_final_report p).
Proof.
  split; [by repeat split|].
  unfold merge, merge_with; cbn [messages research_query search_results analysis
    final_report AgentState_reducers r_messages r_research_query r_search_results
    r_analysis r_final_report].
  rewrite !combine_last_value.
  by destruct (u_messages p).
Qed.

Lemma merge_overwrite_twice (s : AgentState) (p : PartialState) :
  u_messages p = None → merge (merge s p) p = merge s p.
Proof.
  destruct p as [ms q rs a r]; cbn; intros ->.
  unfold merge, merge_with; cbn.
  by destruct q, rs, a, r.
Qed.

Lemma merge_append_twice (s : AgentState) (new : list message) :
  messages (merge (merge s (messages_only new)) (messages_only new))
  = messages s ++ new ++ new.
Proof. cbn. unfold add_messages. by rewrite <- app_assoc. Qed.

(** C5: an update without [messages] applied twice gives the state of
    applying it once; a [messages]-only update applied twice leaves its
    entries twice at the end, so the second application changes the state
    unless the update is empty. *)
Theorem merge_twice (s : AgentState) (p : PartialState) (new : list message) :
  (u_messages p = None → merge (merge s p) p = merge s p)
  ∧ messages (merge (merge s (messages_only new)) (messages_only new))
    = messages s ++ new ++ new
  ∧ (new ≠ [] →
     merge (merge s (messages_only new)) (messages_only new)
     ≠ merge s (messages_only new)).
Proof.
  split; [apply merge_overwrite_twice|].
  split; [apply merge_append_twice|].
  intros Hnew Heq.
  apply (f_equal (λ st, length (messages st))) in Heq.
  rewrite merge_append_twice in Heq. cbn in Heq.
  unfold add_messages in Heq. rewrite !length_app in Heq.
  destruct new; [done|cbn in Heq; lia].
Qed.

Lemma merge_twice_witness :
  merge (merge Sample.state (mkPartial None (Some "q2") None None (Some "R"))) 
        (mkPartial None (Some "q2") None None (Some "R"))
  = merge Sample.state (mkPartial None (Some "q2") None None (Some "R"))
  ∧ merge (merge Sample.state (messages_only [AIMessage "a"])) (messages_only [AIMessage "a"])
    ≠ merge Sample.state (messages_only [AIMessage "a"]).
Proof.
  split.
  - apply (merge_twice Sample.state (mkPartial None (Some "q2") None None (Some "R")) []).
    reflexivity.
  - apply (merge_twice Sample.state no_update [AIMessage "a"]).
    discriminate.
Defined.

(** C6: a [messages]-only update makes [messages] longer by its own
    length and leaves the entries that were there as a prefix. *)
Theorem merge_messages_only (s : AgentState) (new : list message) :
  length (messages (merge s (messages_only new)))
  = length (messages s) + length new
  ∧ take (length (messages s)) (messages (merge s (messages_only new)))
    = messages s.
Proof.
  cbn. unfold add_messages. split.
  - apply length_app.
  - by rewrite take_app_length.
Qed.

(** * The node functions *)

Lemma log_events_nil (m : machine) : log_events m [] = m.
Proof. destruct m; unfold log_events; cbn. by rewrite app_nil_r. Qed.

Lemma log_events_app (m : machine) (evs evs' : list event) :
  log_events (log_events m evs) evs' = log_events m (evs ++ evs').
Proof. unfold log_events; cbn. by rewrite app_assoc. Qed.

Lemma research_planner_run (W : world) (s : AgentState) (m : machine) :
  research_planner W s m
  = (match w_llm W (trace m) (SystemMessage planner_instructions :: messages s) with
     | inr text =>
         inr {| u_messages := Some [AIMessage text];
                u_research_query :=
                  Some match List.filter is_HumanMessage (messages s) with
                       | msg :: _ => content msg
                       | [] => EmptyString
                       end;
                u_search_results := None;
                u_analysis := None;
                u_final_report := None |}
     | inl e => inl e
     end,
     log_events m [ev_llm (SystemMessage planner_instructions :: messages s)]).
Proof.
  unfold research_planner, bind, llm_invoke, ret, log_events; cbn.
  by destruct (w_llm W (trace m) _).
Qed.

(** C9: the update of the planner has no [search_results], [analysis] or
    [final_report] key and exactly one [messages] entry, the answer of the
    model; merged, it leaves the three keys as they were.  When the model
    raises, the planner raises and there is no update. *)
Theorem research_planner_frame (W : world) (s : AgentState) (m : machine) :
  match (research_planner W s m).1 with
  | inr p =>
      u_search_results p = None ∧ u_analysis p = None ∧ u_final_report p = None
      ∧ (∃ plan,
           w_llm W (trace m) (SystemMessage planner_instructions :: messages s)
           = inr plan
           ∧ u_messages p = Some [AIMessage plan]
           ∧ messages (merge s p) = messages s ++ [AIMessage plan])
      ∧ search_results (merge s p) = search_results s
      ∧ analysis (merge s p) = analysis s
      ∧ final_report (merge s p) = final_report s
  | inl e =>
      w_llm W (trace m) (SystemMessage planner_instructions :: messages s) = inl e
  end.
Proof.
  rewrite research_planner_run; cbn.
  destruct (w_llm W (trace m) _) as [e|plan]; [done|].
  cbn. repeat split; eauto.
Qed.

Lemma fold_format_step (raw : list raw_result) (acc : list (gmap string value)) :
  fold_left format_step raw acc
  = acc ++ ((λ d : gmap string value,
               {[ "title" := get_default d "title" (VStr EmptyString);
                  "content" := get_default d "content" (VStr EmptyString);
                  "url" := get_default d "url" (VStr EmptyString) ]}) <$> dicts_of raw).
Proof.
  revert acc. induction raw as [|[d|] raw IH]; intros acc; cbn.
  - by rewrite app_nil_r.
  - rewrite IH. by rewrite <- app_assoc.
  - apply IH.
Qed.

Lemma format_results_dicts (raw : list raw_result) :
  format_results raw
  = (λ d : gmap string value,
       {[ "title" := get_default d "title" (VStr EmptyString);
          "content" := get_default d "content" (VStr EmptyString);
          "url" := get_default d "url" (VStr EmptyString) ]}) <$> dicts_of raw.
Proof. unfold format_results. by rewrite fold_format_step. Qed.

Lemma formatted_lookup (a b c : value) :
  let r : gmap string value := {[ "title" := a; "content" := b; "url" := c ]} in
  r !! "title" = Some a ∧ r !! "content" = Some b ∧ r !! "url" = Some c
  ∧ dom r = {[ "title"; "content"; "url" ]}.
Proof.
  intros r. subst r. split; [|split; [|split]].
  - by rewrite lookup_insert_eq.
  - rewrite lookup_insert_ne; [|done]. by rewrite lookup_insert_eq.
  - rewrite !lookup_insert_ne; [|done..]. by rewrite lookup_singleton_eq.
  - rewrite !dom_insert_L, dom_singleton_L. set_solver.
Qed.

Lemma format_results_readable (raw : list raw_result) :
  Forall readable (format_results raw).
Proof.
  rewrite format_results_dicts. apply Forall_fmap, Forall_forall.
  intros d _. unfold readable; cbn.
  destruct (formatted_lookup (get_default d "title" (VStr EmptyString))
              (get_default d "content" (VStr EmptyString))
              (get_default d "url" (VStr EmptyString))) as (-> & -> & _).
  eauto.
Qed.

Lemma web_searcher_run (W : world) (s : AgentState) (m : machine) :
  web_searcher W s m
  = (inr match w_search W (trace m) (research_query s) with
         | inr raw =>
             {| u_messages :=
                  Some [AIMessage
                          ("Found " +:+ Py.str_of_nat (length (format_results raw))
                           +:+ " relevant sources for: " +:+ research_query s)];
                u_research_query := None;
                u_search_results := Some (format_results raw);
                u_analysis := None;
                u_final_report := None |}
         | inl e =>
             {| u_messages := Some [AIMessage ("Search error: " +:+ str e)];
                u_research_query := None;
                u_search_results := Some [];
                u_analysis := None;
                u_final_report := None |}
         end,
     log_events m [ev_search (research_query s)]).
Proof.
  unfold web_searcher, try_except, bind, search_tool_invoke, ret, log_events; cbn.
  by destruct (w_search W (trace m) _).
Qed.

(** C10 as stated fails: the search tool answers with one dictionary
    whose content is [None]; the search step keeps the [None], so the
    three fields of the result are not all texts. *)
Lemma null_content_is_kept :
  ∃ p results r,
    (web_searcher Sample.null_content Sample.state Sample.fresh).1 = inr p
    ∧ u_search_results p = Some results
    ∧ results = [r]
    ∧ r !! "content" = Some VNone
    ∧ ¬ string_fields results.
Proof.
  eexists _, _, _. split; [reflexivity|]. split; [reflexivity|].
  split; [reflexivity|]. split; [by vm_compute|].
  intros Hfields. apply Forall_inv in Hfields.
  destruct (Hfields "content") as [text Htext].
  - set_solver.
  - vm_compute in Htext. discriminate Htext.
Qed.

(** C10, amended: when the search tool answers, the [search_results] of
    the update hold one dictionary per dictionary of the raw answer, in
    the same order and nothing else; each has exactly the keys [title],
    [content] and [url], each with the raw value of the key, kept as it
    is, or the empty text when the key is missing.  The three fields are
    texts when the raw values under these keys are. *)
Theorem web_searcher_results (W : world) (s : AgentState) (m : machine)
    (raw : list raw_result) :
  w_search W (trace m) (research_query s) = inr raw →
  ∃ p results,
    (web_searcher W s m).1 = inr p
    ∧ u_search_results p = Some results
    ∧ search_results (merge s p) = results
    ∧ length results = length (dicts_of raw)
    ∧ (∀ i d, dicts_of raw !! i = Some d →
         ∃ r, results !! i = Some r
              ∧ dom r = {[ "title"; "content"; "url" ]}
              ∧ r !! "title" = Some (default (VStr EmptyString) (d !! "title"))
              ∧ r !! "content" = Some (default (VStr EmptyString) (d !! "content"))
              ∧ r !! "url" = Some (default (VStr EmptyString) (d !! "url")))
    ∧ (Forall text_valued (dicts_of raw) → string_fields results).
Proof.
  intros Hraw. rewrite web_searcher_run, Hraw; cbn.
  eexists _, _. split; [done|]. split; [done|]. split; [done|].
  rewrite format_results_dicts. split; [by rewrite length_fmap|]. split.
  - intros i d Hd. eexists. split.
    + rewrite list_lookup_fmap, Hd. done.
    + pose proof (formatted_lookup (get_default d "title" (VStr EmptyString))
                    (get_default d "content" (VStr EmptyString))
                    (get_default d "url" (VStr EmptyString))) as H.
      cbn in H. destruct H as (H1 & H2 & H3 & H4). done.
  - intros Htext. apply Forall_fmap. eapply Forall_impl; [exact Htext|].
    intros d Hd key Hkey; cbn.
    destruct (formatted_lookup (get_default d "title" (VStr EmptyString))
                (get_default d "content" (VStr EmptyString))
                (get_default d "url" (VStr EmptyString))) as (H1 & H2 & H3 & _).
    assert (∃ text, get_default d key (VStr EmptyString) = VStr text) as [text Ht].
    { unfold get_default. destruct (d !! key) as [v|] eqn:Hv; [|by eexists].
      by apply (Hd key v). }
    exists text. rewrite <- Ht.
    apply list_elem_of_In in Hkey. cbn in Hkey.
    destruct Hkey as [<-|[<-|[<-|[]]]]; done.
Qed.

Lemma web_searcher_results_witness :
  ∃ p results,
    (web_searcher Sample.healthy Sample.state Sample.fresh).1 = inr p
    ∧ u_search_results p = Some results
    ∧ search_results (merge Sample.state p) = results
    ∧ length results = 2
    ∧ (∀ i d, dicts_of Sample.two_results !! i = Some d →
         ∃ r, results !! i = Some r
              ∧ dom r = {[ "title"; "content"; "url" ]}
              ∧ r !! "title" = Some (default (VStr EmptyString) (d !! "title"))
              ∧ r !! "content" = Some (default (VStr EmptyString) (d !! "content"))
              ∧ r !! "url" = Some (default (VStr EmptyString) (d !! "url")))
    ∧ string_fields results.
Proof.
  destruct (web_searcher_results Sample.healthy Sample.state Sample.fresh
              Sample.two_results) as (p & results & Hp & Hres & Hm & Hlen & Hall & Htext);
    [reflexivity|].
  exists p, results. split; [exact Hp|]. split; [exact Hres|]. split; [exact Hm|].
  split; [exact Hlen|]. split; [exact Hall|].
  apply Htext. repeat constructor; intros key v Hkey Hv;
    apply list_elem_of_In in Hkey; cbn in Hkey;
    destruct Hkey as [<-|[<-|[<-|[]]]]; vm_compute in Hv;
    first [discriminate Hv | injection Hv as <-; by eexists].
Defined.

Lemma readable_get_default (result : gmap string value) :
  readable result →
  result !! "title" = Some (get_default result "title" (VStr EmptyString))
  ∧ result !! "content" = Some (get_default result "content" (VStr EmptyString)).
Proof.
  intros [[t Ht] [c Hc]]. unfold get_default. by rewrite Ht, Hc.
Qed.

Lemma summarizable_readable (result : gmap string value) :
  summarizable result → readable result.
Proof. intros [Ht (body & part & Hc & _)]. split; [done|by eexists]. Qed.

Lemma mapM_stops_at {A B : Type} (f : A → M B) (g : A → B)
    (pre : list A) (bad : A) (post : list A) (m : machine) (e : exn) :
  Forall (λ a, f a m = (inr (g a), m)) pre →
  f bad m = (inl e, m) →
  mapM f (pre ++ bad :: post) m = (inl e, m).
Proof.
  intros Hpre Hbad. induction Hpre as [|a pre Ha _ IH]; cbn [app mapM]; unfold bind.
  - by rewrite Hbad.
  - by rewrite Ha, IH.
Qed.

Lemma summary_line_summarizable (result : gmap string value) (m : machine) :
  summarizable result → summary_line result m = (inr (bullet result), m).
Proof.
  intros [[title Ht] (body & part & Hc & Hslice)].
  unfold summary_line, getitem, getslice, bind, bullet, excerpt_of, get_default.
  rewrite Ht, Hc. cbn. by rewrite Hslice.
Qed.

(** The exception a result raises in the summary line, if it does. *)
Lemma summary_line_unsummarizable (result : gmap string value) :
  ¬ summarizable result →
  ∃ e, (∀ m, summary_line result m = (inl e, m))
       ∧ match result !! "title", result !! "content" with
         | None, _ => e = KeyError "title"
         | Some _, None => e = KeyError "content"
         | Some _, Some body => py_slice 200 body = inl e
         end.
Proof.
  intros Hbad. unfold summary_line, getitem, getslice, bind.
  destruct (result !! "title") as [title|] eqn:Ht;
    [|by exists (KeyError "title")].
  destruct (result !! "content") as [body|] eqn:Hc;
    [|by exists (KeyError "content")].
  destruct (py_slice 200 body) as [e|part] eqn:Hslice;
    [exists e; split; [intros m; cbn; by rewrite Hslice|done]|].
  destruct Hbad. split; [by eexists|]. by exists body, part.
Qed.

Lemma first_unsummarizable (results : list (gmap string value)) :
  Forall summarizable results
  ∨ ∃ pre bad post,
      results = pre ++ bad :: post ∧ Forall summarizable pre ∧ ¬ summarizable bad.
Proof.
  induction results as [|r results IH]; [by left|].
  assert (summarizable r ∨ ¬ summarizable r) as [Hr|Hr].
  { unfold summarizable.
    destruct (r !! "title") as [t|]; [|right; by intros [[? ?] _]].
    destruct (r !! "content") as [body|];
      [|right; by intros [_ (? & ? & ? & _)]].
    destruct (py_slice 200 body) as [e|part] eqn:Hslice.
    - right. intros [_ (b & p & [= <-] & Hp)]. congruence.
    - left. split; [by eexists|]. by exists body, part. }
  - destruct IH as [IH|(pre & bad & post & -> & Hpre & Hbad)].
    + left. by constructor.
    + right. exists (r :: pre), bad, post. split; [done|]. split; [|done].
      by constructor.
  - right. by exists [], r, results.
Qed.

Lemma mapM_summary_line (results : list (gmap string value)) (m : machine) :
  Forall summarizable results →
  mapM summary_line results m = (inr (bullet <$> results), m).
Proof.
  induction 1 as [|r results Hr _ IH]; [done|].
  cbn [mapM]. unfold bind at 1. rewrite (summary_line_summarizable r m Hr).
  unfold bind. by rewrite IH.
Qed.

Lemma mapM_title_and_content (results : list (gmap string value)) (m : machine) :
  Forall readable results →
  mapM title_and_content results m
  = (inr ((λ r, "Title: " +:+ py_str (get_default r "title" (VStr EmptyString))
                +:+ Py.nl +:+ "Content: "
                +:+ py_str (get_default r "content" (VStr EmptyString)))
          <$> results), m).
Proof.
  induction 1 as [|r results Hr _ IH]; [done|].
  apply readable_get_default in Hr as [Ht Hc].
  cbn [mapM]. unfold bind at 1. unfold title_and_content at 1, getitem, bind.
  rewrite Ht, Hc. cbn. unfold bind. by rewrite IH.
Qed.

Lemma report_generator_run (W : world) (json_dumps : gmap string pyval → string)
    (template_format : string → list (string * string) → string)
    (s : AgentState) (m : machine) :
  Forall summarizable (take 3 (search_results s)) →
  let prompt :=
    template_format report_template
      [ ("query", research_query s);
        ("search_summary", Py.join Py.nl (bullet <$> take 3 (search_results s)));
        ("analysis", json_dumps (analysis s)) ] in
  report_generator W json_dumps template_format s m
  = (match w_llm W (trace m) [HumanMessage prompt] with
     | inr text =>
         inr {| u_messages := Some [AIMessage text];
                u_research_query := None;
                u_search_results := None;
                u_analysis := None;
                u_final_report := Some text |}
     | inl e => inl e
     end,
     log_events m [ev_llm [HumanMessage prompt]]).
Proof.
  intros Hr prompt. unfold report_generator, bind.
  rewrite (mapM_summary_line _ m Hr).
  unfold llm_invoke, ret, log_events. fold prompt.
  by destruct (w_llm W (trace m) _).
Qed.

(** The report step raises before it calls the model when one of the
    first three results has no summary line. *)
Lemma report_generator_stops (W : world) (json_dumps : gmap string pyval → string)
    (template_format : string → list (string * string) → string)
    (s : AgentState) (m : machine) :
  ¬ Forall summarizable (take 3 (search_results s)) →
  ∃ e, report_generator W json_dumps template_format s m = (inl e, m).
Proof.
  intros Hnot.
  destruct (first_unsummarizable (take 3 (search_results s)))
    as [Hall|(pre & bad & post & Hs & Hpre & Hbad)]; [done|].
  destruct (summary_line_unsummarizable bad Hbad) as (e & He & _).
  exists e. unfold report_generator. rewrite Hs. unfold bind at 1.
  by rewrite (mapM_stops_at summary_line bullet pre bad post m e
                (Forall_impl _ _ _ Hpre
                   (λ r Hr, summary_line_summarizable r m Hr)) (He m)).
Qed.

(** Whatever the state, the report step adds no event but, at most, its
    one call to the model. *)
Lemma report_generator_events (W : world) (json_dumps : gmap string pyval → string)
    (template_format : string → list (string * string) → string)
    (s : AgentState) (m : machine) :
  ∃ r evs,
    report_generator W json_dumps template_format s m = (r, log_events m evs)
    ∧ (evs = [] ∨ ∃ prompt, evs = [ev_llm [HumanMessage prompt]]).
Proof.
  destruct (first_unsummarizable (take 3 (search_results s))) as [Hall|Hbad].
  - rewrite (report_generator_run W json_dumps template_format s m Hall).
    eexists _, _. split; [done|]. right. by eexists.
  - destruct (report_generator_stops W json_dumps template_format s m) as [e ->].
    { intros Hall. destruct Hbad as (pre & bad & post & Hs & _ & Hb).
      rewrite Hs in Hall. apply Forall_app in Hall as [_ Hall].
      by apply Forall_cons in Hall as [? _]. }
    exists (inl e), []. rewrite log_events_nil. by split; [|left].
Qed.

(** C7 as stated fails: the search tool answers with a result whose
    content is [None]; the run reaches the report step, which raises when
    it takes [content[:200]] and never calls the language model, so the
    planner's call is the only one of the run. *)
Lemma report_generator_raises_before_call :
  invoked_steps
    (trace (research Sample.null_content Sample.dumps Sample.format "q"
              Sample.fresh).2)
  = ["planner"; "searcher"; "analyzer"; "reporter"]
  ∧ llm_calls
      (trace (research Sample.null_content Sample.dumps Sample.format "q"
                Sample.fresh).2)
    = [[SystemMessage planner_instructions; HumanMessage "q"]]
  ∧ (∃ r, (research Sample.null_content Sample.dumps Sample.format "q"
             Sample.fresh).1 = inr r
          ∧ error r = Some "'NoneType' object is not subscriptable")
  ∧ ¬ calls_completion_once Sample.null_content Sample.dumps Sample.format
        (mkState [HumanMessage "q"; AIMessage "PLAN"] "q"
           [ {[ "title" := VStr "T1"; "content" := VNone; "url" := VStr "U1" ]} ]
           ∅ EmptyString)
        Sample.fresh.
Proof.
  split; [by vm_compute|]. split; [by vm_compute|]. split.
  - eexists. split; [vm_compute; reflexivity|]. reflexivity.
  - intros [input Hcalls]. vm_compute in Hcalls. discriminate Hcalls.
Qed.

(** C7, amended: on a state whose first three search results each have a
    title and a content of which [content[:200]] can be taken, the report
    step makes exactly one call to the language model, with the one
    prompt built from the query, the summary of the search results and
    the serialized analysis; its update sets [final_report] to the text of
    the answer, carries the answer as the single new [messages] entry and
    has no other key, and when the call raises, so does the step.  On any
    other state the step raises without calling the model. *)
Theorem report_generator_once (W : world) (json_dumps : gmap string pyval → string)
    (template_format : string → list (string * string) → string)
    (s : AgentState) (m : machine) :
  (Forall summarizable (take 3 (search_results s)) →
   let prompt :=
     template_format report_template
       [ ("query", research_query s);
         ("search_summary", Py.join Py.nl (bullet <$> take 3 (search_results s)));
         ("analysis", json_dumps (analysis s)) ] in
   let out := report_generator W json_dumps template_format s m in
   new_events m out.2 = [ev_llm [HumanMessage prompt]]
   ∧ llm_calls (new_events m out.2) = [[HumanMessage prompt]]
   ∧ memory out.2 = memory m
   ∧ match w_llm W (trace m) [HumanMessage prompt] with
     | inr text =>
         out.1 = inr {| u_messages := Some [AIMessage text];
                        u_research_query := None;
                        u_search_results := None;
                        u_analysis := None;
                        u_final_report := Some text |}
     | inl e => out.1 = inl e
     end)
  ∧ (¬ Forall summarizable (take 3 (search_results s)) →
     ∃ e, report_generator W json_dumps template_format s m = (inl e, m)).
Proof.
  split; [|apply report_generator_stops].
  intros Hr prompt out. subst out.
  rewrite (report_generator_run W json_dumps template_format s m Hr). fold prompt.
  cbn [fst snd]. unfold new_events, log_events; cbn [trace memory].
  rewrite drop_app_length.
  repeat split. by destruct (w_llm W (trace m) _).
Qed.

Lemma report_generator_once_witness :
  (let prompt :=
     Sample.format report_template
       [("query", "q"); ("search_summary", "• T1: C1..."); ("analysis", "{}")] in
   let out := report_generator Sample.healthy Sample.dumps Sample.format
                Sample.state Sample.fresh in
   new_events Sample.fresh out.2 = [ev_llm [HumanMessage prompt]]
   ∧ llm_calls (new_events Sample.fresh out.2) = [[HumanMessage prompt]]
   ∧ memory out.2 = ∅
   ∧ out.1 = inr {| u_messages := Some [AIMessage "REPORT_X"];
                    u_research_query := None;
                    u_search_results := None;
                    u_analysis := None;
                    u_final_report := Some "REPORT_X" |})
  ∧ ∃ e, report_generator Sample.healthy Sample.dumps Sample.format
           (mkState [] "q" [ {[ "title" := VStr "T1"; "content" := VNone ]} ] ∅
              EmptyString) Sample.fresh
         = (inl e, Sample.fresh).
Proof.
  split.
  - apply (report_generator_once Sample.healthy Sample.dumps Sample.format
             Sample.state Sample.fresh).
    repeat constructor; [by eexists|]. eexists _, _. split; reflexivity.
  - apply (report_generator_once Sample.healthy Sample.dumps Sample.format
             (mkState [] "q" [ {[ "title" := VStr "T1"; "content" := VNone ]} ] ∅
                EmptyString) Sample.fresh).
    intros Hall. apply Forall_inv in Hall as [_ (body & part & Hbody & Hpart)].
    vm_compute in Hbody. injection Hbody as <-. discriminate Hpart.
Defined.

Lemma content_analyzer_empty (W : world) (s : AgentState) (m : machine) :
  search_results s = [] →
  content_analyzer W s m
  = (inr {| u_messages := Some [AIMessage "No search results to analyze."];
            u_research_query := None;
            u_search_results := None;
            u_analysis := Some ∅;
            u_final_report := None |}, m).
Proof. unfold content_analyzer. by intros ->. Qed.

Lemma content_analyzer_run (W : world) (s : AgentState) (m : machine) :
  Forall readable (search_results s) →
  ∃ note result evs,
    content_analyzer W s m
    = (inr {| u_messages := Some [AIMessage note];
              u_research_query := None;
              u_search_results := None;
              u_analysis := Some result;
              u_final_report := None |}, log_events m evs)
    ∧ invoked_steps evs = [] ∧ llm_calls evs = [].
Proof.
  intros Hr. destruct (search_results s) as [|r rs] eqn:Hs.
  - rewrite (content_analyzer_empty W s m Hs).
    eexists _, _, []. by rewrite log_events_nil.
  - unfold content_analyzer. rewrite Hs. unfold bind at 1.
    rewrite (mapM_title_and_content _ m Hr).
    unfold analyze_research_content, bind, now_isoformat, ret.
    eexists _, _, [ev_now]. done.
Qed.

(** * Computations that leave the checkpoints alone *)

Section KeepsMemory.

Context {A B : Type}.

Lemma keeps_memory_ret (a : A) : keeps_memory (ret a).
Proof. intros t. by exists (inr a), t. Qed.

Lemma keeps_memory_raise (e : exn) : keeps_memory (raise (A := A) e).
Proof. intros t. by exists (inl e), t. Qed.

Lemma keeps_memory_bind (c : M A) (k : A → M B) :
  keeps_memory c → (∀ a, keeps_memory (k a)) → keeps_memory (bind c k).
Proof.
  intros Hc Hk t. destruct (Hc t) as (r & t' & Hrun).
  destruct r as [e|a].
  - exists (inl e), t'. intros mem. unfold bind. by rewrite Hrun.
  - destruct (Hk a t') as (r' & t'' & Hrun').
    exists r', t''. intros mem. unfold bind. by rewrite Hrun, Hrun'.
Qed.

Lemma keeps_memory_try_except (body : M A) (h : exn → M A) :
  keeps_memory body → (∀ e, keeps_memory (h e)) → keeps_memory (try_except body h).
Proof.
  intros Hc Hh t. destruct (Hc t) as (r & t' & Hrun).
  destruct r as [e|a].
  - destruct (Hh e t') as (r' & t'' & Hrun').
    exists r', t''. intros mem. unfold try_except. by rewrite Hrun, Hrun'.
  - exists (inr a), t'. intros mem. unfold try_except. by rewrite Hrun.
Qed.

End KeepsMemory.

Lemma keeps_memory_mapM {A B : Type} (f : A → M B) (l : list A) :
  (∀ a, keeps_memory (f a)) → keeps_memory (mapM f l).
Proof.
  intros Hf. induction l as [|a l IH]; cbn [mapM].
  - apply keeps_memory_ret.
  - apply keeps_memory_bind; [apply Hf|]. intros b.
    apply keeps_memory_bind; [apply IH|].
    intros bs. apply keeps_memory_ret.
Qed.

Lemma keeps_memory_emit (ev : event) : keeps_memory (emit ev).
Proof. intros t. by exists (inr tt), (t ++ [ev]). Qed.

Lemma keeps_memory_getitem (d : gmap string value) (key : string) :
  keeps_memory (getitem d key).
Proof.
  unfold getitem. destruct (d !! key).
  - apply keeps_memory_ret.
  - apply keeps_memory_raise.
Qed.

Lemma keeps_memory_getslice (n : nat) (v : value) : keeps_memory (getslice n v).
Proof.
  unfold getslice. destruct (py_slice n v).
  - apply keeps_memory_raise.
  - apply keeps_memory_ret.
Qed.

Lemma keeps_memory_llm_invoke (W : world) (input : list message) :
  keeps_memory (llm_invoke W input).
Proof. intros t. eexists _, _. intros mem. unfold llm_invoke. cbn. reflexivity. Qed.

Lemma keeps_memory_search_tool_invoke (W : world) (query : string) :
  keeps_memory (search_tool_invoke W query).
Proof. intros t. eexists _, _. intros mem. unfold search_tool_invoke. cbn. reflexivity. Qed.

Lemma keeps_memory_now_isoformat (W : world) : keeps_memory (now_isoformat W).
Proof. intros t. eexists _, _. intros mem. unfold now_isoformat. cbn. reflexivity. Qed.

Lemma keeps_memory_now_timestamp (W : world) : keeps_memory (now_timestamp W).
Proof. intros t. eexists _, _. intros mem. unfold now_timestamp. cbn. reflexivity. Qed.

Create HintDb frame discriminated.

#[local] Hint Resolve keeps_memory_ret keeps_memory_raise keeps_memory_emit
  keeps_memory_getitem keeps_memory_getslice keeps_memory_llm_invoke keeps_memory_search_tool_invoke
  keeps_memory_now_isoformat keeps_memory_now_timestamp : frame.

Ltac frame :=
  repeat first
    [ progress intros
    | apply keeps_memory_bind
    | apply keeps_memory_try_except
    | apply keeps_memory_mapM
    | solve [auto with frame] ].

Lemma keeps_memory_research_planner (W : world) (s : AgentState) :
  keeps_memory (research_planner W s).
Proof. unfold research_planner. frame. Qed.

Lemma keeps_memory_web_searcher (W : world) (s : AgentState) :
  keeps_memory (web_searcher W s).
Proof. unfold web_searcher. frame. Qed.

Lemma keeps_memory_content_analyzer (W : world) (s : AgentState) :
  keeps_memory (content_analyzer W s).
Proof.
  unfold content_analyzer. destruct (search_results s); [frame|].
  unfold analyze_research_content, title_and_content. frame.
Qed.

Lemma keeps_memory_report_generator (W : world)
    (json_dumps : gmap string pyval → string)
    (template_format : string → list (string * string) → string)
    (s : AgentState) :
  keeps_memory (report_generator W json_dumps template_format s).
Proof. unfold report_generator, summary_line. frame. Qed.

(** * The walk of the engine *)

Lemma run_from_cons (st : Step) (rest : list Step) (i : nat) (tid : string)
    (s : AgentState) (m : machine) :
  run_from (st :: rest) i tid s m
  = match handler st s (log_events m [ev_node (step_name st)]) with
    | (inr p, m1) =>
        run_from rest (S i) tid (merge s p) (checkpointed tid (merge s p) (S i) m1)
    | (inl e, m1) => (inl e, m1)
    end.
Proof.
  cbn [run_from]. unfold bind, emit, put, checkpointed, log_events.
  by destruct (handler st s _) as [[e|p] m1].
Qed.

Lemma run_from_halt (steps : list Step) (i : nat) (tid : string)
    (s : AgentState) (m : machine) (e : exn) (m' : machine) :
  run_from steps i tid s m = (inl e, m') →
  ∃ pre st post s_k m_k,
    steps = pre ++ st :: post
    ∧ run_from pre i tid s m = (inr s_k, m_k)
    ∧ handler st s_k (log_events m_k [ev_node (step_name st)]) = (inl e, m').
Proof.
  revert i s m. induction steps as [|st rest IH]; intros i s m Hrun; [done|].
  rewrite run_from_cons in Hrun.
  destruct (handler st s _) as [[e1|p] m1] eqn:Hh.
  - injection Hrun as -> ->. by exists [], st, rest, s, m.
  - apply IH in Hrun as (pre & st' & post & s_k & m_k & -> & Hpre & Hst).
    exists (st :: pre), st', post, s_k, m_k. split; [done|]. split; [|done].
    rewrite run_from_cons, Hh. done.
Qed.

Lemma run_from_last_checkpoint (steps : list Step) (i : nat) (tid : string)
    (s : AgentState) (m : machine) (s' : AgentState) (m' : machine) :
  steps ≠ [] →
  run_from steps i tid s m = (inr s', m') →
  get tid m' = Some (mkCheckpoint s' (i + length steps)).
Proof.
  revert i s m. induction steps as [|st rest IH]; intros i s m Hne Hrun; [done|].
  rewrite run_from_cons in Hrun.
  destruct (handler st s _) as [[e1|p] m1] eqn:Hh; [done|].
  destruct rest as [|st2 rest].
  - injection Hrun as <- <-. unfold get, checkpointed; cbn.
    rewrite lookup_insert_eq. do 2 f_equal. lia.
  - apply IH in Hrun; [|done]. rewrite Hrun. do 2 f_equal. cbn. lia.
Qed.

Lemma run_from_writes_only (steps : list Step) (i : nat) (tid : string)
    (s : AgentState) :
  Forall (λ st, ∀ s, keeps_memory (handler st s)) steps →
  writes_only tid (run_from steps i tid s).
Proof.
  intros Hsteps. revert i s.
  induction Hsteps as [|st rest Hst _ IH]; intros i s t.
  - exists (inr s), t, None. done.
  - destruct (Hst s (t ++ [ev_node (step_name st)])) as (r & t1 & Hrun).
    destruct r as [e|p].
    + exists (inl e), t1, None. intros mem.
      rewrite run_from_cons. unfold log_events; cbn. by rewrite Hrun.
    + destruct (IH (S i) (merge s p) t1) as (r' & t' & w & Hrest).
      exists r', t', (Some (default (mkCheckpoint (merge s p) (S i)) w)). intros mem.
      rewrite run_from_cons. unfold log_events; cbn. rewrite Hrun.
      unfold checkpointed; cbn. rewrite Hrest.
      destruct w; cbn; [by rewrite insert_insert_eq|done].
Qed.

Lemma create_workflow_steps (W : world) (json_dumps : gmap string pyval → string)
    (template_format : string → list (string * string) → string) :
  _create_workflow W json_dumps template_format
  = inr [planner W; searcher W; analyzer W; reporter W json_dumps template_format].
Proof. reflexivity. Qed.

Lemma workflow_handlers_keep_memory (W : world)
    (json_dumps : gmap string pyval → string)
    (template_format : string → list (string * string) → string) :
  Forall (λ st, ∀ s, keeps_memory (handler st s))
    [planner W; searcher W; analyzer W; reporter W json_dumps template_format].
Proof.
  repeat constructor; intros s; cbn.
  - apply keeps_memory_research_planner.
  - apply keeps_memory_web_searcher.
  - apply keeps_memory_content_analyzer.
  - apply keeps_memory_report_generator.
Qed.

Lemma research_writes_only (W : world) (json_dumps : gmap string pyval → string)
    (template_format : string → list (string * string) → string)
    (query : string) (t : list event) :
  ∃ r t' (written : option Checkpoint), ∀ mem,
    research W json_dumps template_format query (mkMachine t mem)
    = (inr r, mkMachine t' match written with
                           | Some ck => <["research_" +:+ w_timestamp W t := ck]> mem
                           | None => mem
                           end).
Proof.
  destruct (run_from_writes_only
              [planner W; searcher W; analyzer W; reporter W json_dumps template_format]
              0 ("research_" +:+ w_timestamp W t) (initial_state query)
              (workflow_handlers_keep_memory W json_dumps template_format)
              (t ++ [ev_now]))
    as (r & t' & w & Hrun).
  destruct r as [e|s].
  - exists (failure e), t', w. intros mem.
    unfold research, bind, now_timestamp, try_except, workflow_invoke.
    rewrite create_workflow_steps. unfold invoke; cbn [trace memory].
    by rewrite Hrun.
  - exists (of_state s), t', w. intros mem.
    unfold research, bind, now_timestamp, try_except, workflow_invoke.
    rewrite create_workflow_steps. unfold invoke; cbn [trace memory].
    by rewrite Hrun.
Qed.

(** C8: a run leaves the checkpoint of every other thread as it was, and
    neither its result nor what it does depends on the checkpoints the
    store holds: it only writes, and only under its own thread. *)
Theorem checkpoints_independent (W : world)
    (json_dumps : gmap string pyval → string)
    (template_format : string → list (string * string) → string)
    (query : string) (threadId1 : string) (t : list event)
    (mem mem' : gmap string Checkpoint) :
  threadId1 ≠ "research_" +:+ w_timestamp W t →
  let run := research W json_dumps template_format query in
  get threadId1 (run (mkMachine t mem)).2 = mem !! threadId1
  ∧ (run (mkMachine t mem)).1 = (run (mkMachine t mem')).1
  ∧ trace (run (mkMachine t mem)).2 = trace (run (mkMachine t mem')).2.
Proof.
  intros Hne run. subst run.
  destruct (research_writes_only W json_dumps template_format query t)
    as (r & t' & w & Hrun).
  rewrite !Hrun. cbn. split; [|done].
  unfold get; cbn. destruct w; [|done]. by rewrite lookup_insert_ne.
Qed.

Lemma checkpoints_independent_witness :
  get "research_1.0"
    (research Sample.healthy Sample.dumps Sample.format "q"
       (mkMachine [] {[ "research_1.0" := mkCheckpoint Sample.state 4 ]})).2
  = Some (mkCheckpoint Sample.state 4)
  ∧ (research Sample.healthy Sample.dumps Sample.format "q"
       (mkMachine [] {[ "research_1.0" := mkCheckpoint Sample.state 4 ]})).1
    = (research Sample.healthy Sample.dumps Sample.format "q" Sample.fresh).1.
Proof.
  destruct (checkpoints_independent Sample.healthy Sample.dumps Sample.format "q"
              "research_1.0" [] {[ "research_1.0" := mkCheckpoint Sample.state 4 ]} ∅)
    as (Hget & Hres & _).
  - vm_compute. discriminate.
  - split; [|exact Hres]. rewrite Hget. apply lookup_singleton_eq.
Defined.

(** * Runs of the workflow *)

Lemma invoked_steps_app (evs evs' : list event) :
  invoked_steps (evs ++ evs') = invoked_steps evs ++ invoked_steps evs'.
Proof. apply omap_app. Qed.

Lemma llm_calls_app (evs evs' : list event) :
  llm_calls (evs ++ evs') = llm_calls evs ++ llm_calls evs'.
Proof. apply omap_app. Qed.

Lemma planner_raises (W : world) (rest : list Step) (query threadId : string)
    (m : machine) (e : exn) :
  let input := [SystemMessage planner_instructions; HumanMessage query] in
  w_llm W (trace m ++ [ev_node "planner"]) input = inl e →
  run_from (planner W :: rest) 0 threadId (initial_state query) m
  = (inl e, log_events m [ev_node "planner"; ev_llm input]).
Proof.
  intros input Hllm. rewrite run_from_cons. cbn [handler step_name planner].
  rewrite research_planner_run. cbn [trace log_events messages initial_state].
  fold input. rewrite Hllm. by rewrite log_events_app.
Qed.

Lemma search_then_analyze (W : world) (i : nat) (threadId : string)
    (s1 : AgentState) (m1 : machine) :
  ∃ s3 evs,
    run_from [searcher W; analyzer W] i threadId s1 m1
    = (inr s3, mkMachine (trace m1 ++ evs)
                 (<[threadId := mkCheckpoint s3 (S (S i))]> (memory m1)))
    ∧ invoked_steps evs = ["searcher"; "analyzer"]
    ∧ llm_calls evs = []
    ∧ Forall readable (search_results s3)
    ∧ search_results s3
      = match w_search W (trace m1 ++ [ev_node "searcher"]) (research_query s1) with
        | inr raw => format_results raw
        | inl _ => []
        end.
Proof.
  rewrite run_from_cons. cbn [handler step_name searcher].
  rewrite web_searcher_run.
  remember (match w_search W _ _ with inr raw => _ | inl e => _ end) as p2 eqn:Hp2.
  assert (Forall readable (search_results (merge s1 p2))) as Hread.
  { subst p2. destruct (w_search W _ _); cbn.
    - constructor.
    - apply format_results_readable. }
  assert (search_results (merge s1 p2)
          = match w_search W (trace m1 ++ [ev_node "searcher"]) (research_query s1) with
            | inr raw => format_results raw
            | inl _ => []
            end) as Hfound.
  { subst p2. cbn [trace log_events]. by destruct (w_search W _ _). }
  clear Hp2.
  rewrite run_from_cons. cbn [handler step_name analyzer].
  match goal with |- context [content_analyzer W ?s ?m'] =>
    destruct (content_analyzer_run W s m' Hread) as (note & a & evs & -> & Hsteps & Hcalls)
  end.
  cbn [run_from]. unfold ret.
  eexists _, ([ev_node "searcher"; ev_search (research_query s1); ev_node "analyzer"]
              ++ evs).
  split; [|split; [|split; [|split]]].
  - unfold checkpointed, log_events; cbn [trace memory].
    f_equal. f_equal.
    + rewrite <- !app_assoc. done.
    + by rewrite !insert_insert_eq.
  - rewrite invoked_steps_app, Hsteps. done.
  - rewrite llm_calls_app, Hcalls. done.
  - done.
  - exact Hfound.
Qed.

Lemma run_from_app (pre post : list Step) (i : nat) (tid : string)
    (s : AgentState) (m : machine) :
  run_from (pre ++ post) i tid s m
  = match run_from pre i tid s m with
    | (inr s', m') => run_from post (i + length pre) tid s' m'
    | (inl e, m') => (inl e, m')
    end.
Proof.
  revert i s m. induction pre as [|st pre IH]; intros i s m.
  - cbn. unfold ret. by rewrite Nat.add_0_r.
  - cbn [app]. rewrite !run_from_cons.
    destruct (handler st s _) as [[e|p] m1]; [done|].
    rewrite IH. cbn [length]. by rewrite Nat.add_succ_r.
Qed.

Lemma first_three_steps (W : world) (query threadId : string) (m : machine)
    (plan : string) :
  let input := [SystemMessage planner_instructions; HumanMessage query] in
  w_llm W (trace m ++ [ev_node "planner"]) input = inr plan →
  ∃ s3 evs,
    run_from [planner W; searcher W; analyzer W] 0 threadId (initial_state query) m
    = (inr s3, mkMachine (trace m ++ evs)
                 (<[threadId := mkCheckpoint s3 3]> (memory m)))
    ∧ invoked_steps evs = ["planner"; "searcher"; "analyzer"]
    ∧ llm_calls evs = [input]
    ∧ Forall readable (search_results s3)
    ∧ search_results s3
      = match w_search W
                (trace m ++ [ev_node "planner"; ev_llm input; ev_node "searcher"])
                query with
        | inr raw => format_results raw
        | inl _ => []
        end.
Proof.
  intros input Hllm.
  rewrite run_from_cons. cbn [handler step_name planner].
  rewrite research_planner_run. cbn [trace log_events messages initial_state].
  fold input. rewrite Hllm.
  match goal with |- context [run_from _ 1 threadId ?s1 ?m1] =>
    destruct (search_then_analyze W 1 threadId s1 m1)
      as (s3 & evs & -> & Hsteps & Hcalls & Hread & Hfound)
  end.
  exists s3, ([ev_node "planner"; ev_llm input] ++ evs).
  split; [|split; [|split; [|split]]].
  - unfold checkpointed, log_events; cbn [trace memory].
    f_equal. f_equal.
    + rewrite <- !app_assoc. done.
    + by rewrite insert_insert_eq.
  - rewrite invoked_steps_app, Hsteps. done.
  - rewrite llm_calls_app, Hcalls. done.
  - done.
  - rewrite Hfound. unfold checkpointed, log_events; cbn [trace].
    rewrite <- !app_assoc. reflexivity.
Qed.

Lemma workflow_invoke_steps (W : world) (json_dumps : gmap string pyval → string)
    (template_format : string → list (string * string) → string)
    (s : AgentState) (threadId : string) (m : machine) :
  workflow_invoke W json_dumps template_format s threadId m
  = match run_from [planner W; searcher W; analyzer W] 0 threadId s m with
    | (inr s3, m3) =>
        match report_generator W json_dumps template_format s3
                (log_events m3 [ev_node "reporter"]) with
        | (inr p, m4) => (inr (merge s3 p), checkpointed threadId (merge s3 p) 4 m4)
        | (inl e, m4) => (inl e, m4)
        end
    | (inl e, m3) => (inl e, m3)
    end.
Proof.
  unfold workflow_invoke. rewrite create_workflow_steps. unfold invoke.
  change [planner W; searcher W; analyzer W; reporter W json_dumps template_format]
    with ([planner W; searcher W; analyzer W]
          ++ [reporter W json_dumps template_format]).
  rewrite run_from_app.
  destruct (run_from [planner W; searcher W; analyzer W] 0 threadId s m)
    as [[e|s3] m3]; [done|].
  rewrite run_from_cons. cbn [handler step_name reporter].
  by destruct (report_generator _ _ _ _ _) as [[e|p] m4].
Qed.

Lemma research_unfold (W : world) (json_dumps : gmap string pyval → string)
    (template_format : string → list (string * string) → string)
    (query : string) (m : machine) :
  research W json_dumps template_format query m
  = match workflow_invoke W json_dumps template_format (initial_state query)
            ("research_" +:+ w_timestamp W (trace m)) (log_events m [ev_now]) with
    | (inr final_state, m') => (inr (of_state final_state), m')
    | (inl e, m') => (inr (failure e), m')
    end.
Proof.
  unfold research, bind, now_timestamp, try_except, ret, log_events.
  by destruct (workflow_invoke _ _ _ _ _ _) as [[e|s] m'].
Qed.

(** C4 as stated fails: with a language model that always raises, the
    only step called is planner. *)
Lemma steps_skipped_when_planner_raises :
  ¬ every_step_once Sample.no_llm Sample.dumps Sample.format "q" Sample.fresh.
Proof. unfold every_step_once. vm_compute. discriminate. Qed.

(** C4, amended: when the plan step does not raise, a run calls planner,
    searcher, analyzer and reporter in this order, once each, whatever
    the search tool and the report step do; when the plan step raises,
    planner is the only step called.  Every step of the graph has exactly
    one outgoing edge. *)
Theorem steps_in_order (W : world) (json_dumps : gmap string pyval → string)
    (template_format : string → list (string * string) → string)
    (query : string) (m : machine) :
  invoked_steps (new_events m (research W json_dumps template_format query m).2)
  = match w_llm W (trace m ++ [ev_now; ev_node "planner"])
            [SystemMessage planner_instructions; HumanMessage query] with
    | inr _ => ["planner"; "searcher"; "analyzer"; "reporter"]
    | inl _ => ["planner"]
    end
  ∧ Forall (λ st, ∃ v,
              successors (edges (workflow_graph W json_dumps template_format))
                (node (step_name st)) = [v])
      (nodes (workflow_graph W json_dumps template_format)).
Proof.
  split; [|repeat constructor; by eexists].
  rewrite research_unfold, workflow_invoke_steps.
  set (threadId := "research_" +:+ _).
  destruct (w_llm W _ _) as [e|plan] eqn:Hllm.
  - rewrite (planner_raises W _ query threadId (log_events m [ev_now]) e).
    2:{ cbn [trace log_events]. by rewrite <- app_assoc. }
    cbn [snd]. unfold new_events, log_events; cbn [trace].
    rewrite <- app_assoc, drop_app_length. done.
  - destruct (first_three_steps W query threadId (log_events m [ev_now]) plan)
      as (s3 & evs & -> & Hsteps & _).
    { cbn [trace log_events]. by rewrite <- app_assoc. }
    match goal with |- context [report_generator _ _ _ s3 ?m3] =>
      destruct (report_generator_events W json_dumps template_format s3 m3)
        as (r & evs' & -> & Hevs')
    end.
    assert (invoked_steps evs' = []) as Hnone.
    { by destruct Hevs' as [->|[prompt ->]]. }
    destruct r as [e|p];
      cbn [snd]; unfold new_events, checkpointed, log_events; cbn [trace];
      rewrite <- !app_assoc; rewrite drop_app_length;
      rewrite !invoked_steps_app, Hsteps, Hnone; done.
Qed.

(** C1 as stated fails: the model answers the planner and raises in the
    report step; all four steps were called and the checkpoint of the
    thread holds two search results, yet the result has none. *)
Lemma failure_drops_committed_state :
  invoked_steps
    (trace (research Sample.no_report Sample.dumps Sample.format "q" Sample.fresh).2)
  = ["planner"; "searcher"; "analyzer"; "reporter"]
  ∧ (∃ ck, get "research_1700000000.5"
             (research Sample.no_report Sample.dumps Sample.format "q" Sample.fresh).2
           = Some ck
           ∧ ck_stepIndex ck = 3
           ∧ length (search_results (ck_state ck)) = 2)
  ∧ ¬ returns_committed_state Sample.no_report Sample.dumps Sample.format "q"
        Sample.fresh.
Proof.
  split; [by vm_compute|]. split.
  - eexists. split; [vm_compute; reflexivity|]. by vm_compute.
  - intros (r & ck & Hr & _ & Hs & _).
    vm_compute in Hr. injection Hr as <-. discriminate Hs.
Qed.

(** C1, amended: when the handler of a step raises, the walk ends there,
    in the machine state the failing handler left, so no later step is
    called, and [research] returns the error text under [error], one
    "Research failed" message and a [final_report] that holds the error
    description; the result has no [search_results] and no [analysis].
    Conversely a walk that raises was ended by the handler of one of the
    four steps.  When the report step raises, the state committed after
    the analyze step stays in the checkpoint of the thread, under step
    index 3. *)
Theorem research_failure (W : world) (json_dumps : gmap string pyval → string)
    (template_format : string → list (string * string) → string)
    (query : string) (m : machine) :
  let threadId := "research_" +:+ w_timestamp W (trace m) in
  let start := log_events m [ev_now] in
  (∀ pre st post s_k m_k e m',
     [planner W; searcher W; analyzer W; reporter W json_dumps template_format]
     = pre ++ st :: post →
     run_from pre 0 threadId (initial_state query) start = (inr s_k, m_k) →
     handler st s_k (log_events m_k [ev_node (step_name st)]) = (inl e, m') →
     workflow_invoke W json_dumps template_format (initial_state query) threadId start
     = (inl e, m')
     ∧ research W json_dumps template_format query m
       = (inr {| error := Some (str e);
                 res_messages := Some [AIMessage ("Research failed: " +:+ str e)];
                 res_research_query := None;
                 res_search_results := None;
                 res_analysis := None;
                 res_final_report :=
                   Some ("Error occurred during research: " +:+ str e) |}, m'))
  ∧ (∀ e m',
       workflow_invoke W json_dumps template_format (initial_state query) threadId
         start = (inl e, m') →
       research W json_dumps template_format query m
       = (inr {| error := Some (str e);
                 res_messages := Some [AIMessage ("Research failed: " +:+ str e)];
                 res_research_query := None;
                 res_search_results := None;
                 res_analysis := None;
                 res_final_report :=
                   Some ("Error occurred during research: " +:+ str e) |}, m')
       ∧ ∃ pre st post s_k m_k,
           [planner W; searcher W; analyzer W; reporter W json_dumps template_format]
           = pre ++ st :: post
           ∧ run_from pre 0 threadId (initial_state query) start = (inr s_k, m_k)
           ∧ handler st s_k (log_events m_k [ev_node (step_name st)]) = (inl e, m'))
  ∧ (∀ s3 m3 e m4,
       run_from [planner W; searcher W; analyzer W] 0 threadId (initial_state query)
         start = (inr s3, m3) →
       report_generator W json_dumps template_format s3
         (log_events m3 [ev_node "reporter"]) = (inl e, m4) →
       workflow_invoke W json_dumps template_format (initial_state query) threadId
         start = (inl e, m4)
       ∧ get threadId m4 = Some (mkCheckpoint s3 3)).
Proof.
  intros threadId start. split; [|split].
  - intros pre st post s_k m_k e m' Hsplit Hpre Hraise.
    assert (workflow_invoke W json_dumps template_format (initial_state query)
              threadId start = (inl e, m')) as Hrun.
    { unfold workflow_invoke. rewrite create_workflow_steps. unfold invoke.
      rewrite Hsplit, run_from_app, Hpre, run_from_cons. by rewrite Hraise. }
    split; [exact Hrun|].
    rewrite research_unfold. fold threadId start. by rewrite Hrun.
  - intros e m' Hrun. split.
    + rewrite research_unfold. fold threadId start. by rewrite Hrun.
    + unfold workflow_invoke in Hrun. rewrite create_workflow_steps in Hrun.
      by apply run_from_halt in Hrun.
  - intros s3 m3 e m4 Hthree Hreport. split.
    + by rewrite workflow_invoke_steps, Hthree, Hreport.
    + apply run_from_last_checkpoint in Hthree as Hck; [|done].
      destruct (keeps_memory_report_generator W json_dumps template_format s3
                  (trace m3 ++ [ev_node "reporter"])) as (r & t' & Hkeep).
      unfold log_events in Hreport. rewrite Hkeep in Hreport.
      injection Hreport as _ <-. exact Hck.
Qed.

Lemma research_failure_witness :
  (research Sample.no_report Sample.dumps Sample.format "q" Sample.fresh).1
  = inr {| error := Some "invalid api key";
           res_messages := Some [AIMessage "Research failed: invalid api key"];
           res_research_query := None;
           res_search_results := None;
           res_analysis := None;
           res_final_report :=
             Some "Error occurred during research: invalid api key" |}
  ∧ (∃ pre st post,
       [planner Sample.no_report; searcher Sample.no_report;
        analyzer Sample.no_report;
        reporter Sample.no_report Sample.dumps Sample.format] = pre ++ st :: post
       ∧ step_name st = "reporter")
  ∧ ∃ s3, get "research_1700000000.5"
            (research Sample.no_report Sample.dumps Sample.format "q" Sample.fresh).2
          = Some (mkCheckpoint s3 3)
          ∧ length (search_results s3) = 2.
Proof.
  pose proof (research_failure Sample.no_report Sample.dumps Sample.format "q"
                Sample.fresh) as (Hforward & Hconverse & Hreport).
  pose (three := run_from [planner Sample.no_report; searcher Sample.no_report;
                           analyzer Sample.no_report] 0 "research_1700000000.5"
                   (initial_state "q") (log_events Sample.fresh [ev_now])).
  pose (s3 := match three.1 with inr s => s | inl _ => initial_state "q" end).
  destruct (Hforward
              [planner Sample.no_report; searcher Sample.no_report;
               analyzer Sample.no_report]
              (reporter Sample.no_report Sample.dumps Sample.format) []
              s3 three.2 (Exception "invalid api key")
              (log_events three.2
                 [ev_node "reporter";
                  ev_llm [HumanMessage
                            (Sample.format report_template
                               [("query", "q");
                                ("search_summary",
                                 Py.join Py.nl (bullet <$> take 3 (search_results s3)));
                                ("analysis", Sample.dumps (analysis s3))])]]))
    as [Hrun Hres].
  { reflexivity. }
  { vm_compute. reflexivity. }
  { vm_compute. reflexivity. }
  destruct (Hconverse _ _ Hrun) as [_ Hhalt].
  destruct (Hreport s3 three.2 (Exception "invalid api key")
              (log_events three.2
                 [ev_node "reporter";
                  ev_llm [HumanMessage
                            (Sample.format report_template
                               [("query", "q");
                                ("search_summary",
                                 Py.join Py.nl (bullet <$> take 3 (search_results s3)));
                                ("analysis", Sample.dumps (analysis s3))])]]))
    as [_ Hck].
  { vm_compute. reflexivity. }
  { vm_compute. reflexivity. }
  split.
  - rewrite Hres. reflexivity.
  - split.
    + exists [planner Sample.no_report; searcher Sample.no_report;
              analyzer Sample.no_report],
             (reporter Sample.no_report Sample.dumps Sample.format), [].
      split; reflexivity.
    + exists s3. split.
      * rewrite Hres. exact Hck.
      * vm_compute. reflexivity.
Defined.

(** C3 as stated fails in its last clause: the search tool raises, the
    run still returns a result without error and with no search results,
    but its report is the very report of the run in which the search
    found two results, so nothing in it reflects that search data is
    absent. *)
Lemma report_blind_to_search_failure :
  ∃ degraded normal,
    (research Sample.no_search Sample.dumps Sample.format "q" Sample.fresh).1
    = inr degraded
    ∧ (research Sample.healthy Sample.dumps Sample.format "q" Sample.fresh).1
      = inr normal
    ∧ error degraded = None
    ∧ res_search_results degraded = Some []
    ∧ length <$> res_search_results normal = Some 2
    ∧ res_final_report degraded = Some "REPORT_X"
    ∧ ¬ report_reflects_absence degraded normal.
Proof.
  eexists _, _. split; [vm_compute; reflexivity|]. split; [vm_compute; reflexivity|].
  split; [reflexivity|]. split; [reflexivity|]. split; [by vm_compute|].
  split; [reflexivity|]. intros Hreflects. by apply Hreflects.
Qed.

(** C3, amended: when the search tool raises after the plan step, the
    search step returns empty [search_results] and one message with the
    error text, the analyze step returns an empty [analysis] and one
    message, and the report step is reached with a prompt whose search
    summary is empty and whose analysis is the serialized empty
    dictionary; the language model answering that prompt, [research]
    returns the final state without [error], and the report is that
    answer, whatever it says. *)
Theorem search_failure_absorbed (W : world)
    (json_dumps : gmap string pyval → string)
    (template_format : string → list (string * string) → string)
    (query : string) (m : machine) (e : exn) (plan : string) :
  let input := [SystemMessage planner_instructions; HumanMessage query] in
  let t1 := trace m ++ [ev_now; ev_node "planner"] in
  let t2 := trace m ++ [ev_now; ev_node "planner"; ev_llm input; ev_node "searcher"] in
  let t3 := trace m ++ [ev_now; ev_node "planner"; ev_llm input; ev_node "searcher";
                        ev_search query; ev_node "analyzer"; ev_node "reporter"] in
  let prompt :=
    template_format report_template
      [("query", query); ("search_summary", EmptyString);
       ("analysis", json_dumps ∅)] in
  let note := AIMessage ("Search error: " +:+ str e) in
  let s1 := mkState [HumanMessage query; AIMessage plan] query [] ∅ EmptyString in
  let s2 := mkState [HumanMessage query; AIMessage plan; note] query [] ∅
              EmptyString in
  w_llm W t1 input = inr plan →
  w_search W t2 query = inl e →
  (∀ mem, web_searcher W s1 (mkMachine t2 mem)
          = (inr {| u_messages := Some [note];
                    u_research_query := None;
                    u_search_results := Some [];
                    u_analysis := None;
                    u_final_report := None |},
             mkMachine (t2 ++ [ev_search query]) mem))
  ∧ (∀ m', content_analyzer W s2 m'
           = (inr {| u_messages := Some [AIMessage "No search results to analyze."];
                     u_research_query := None;
                     u_search_results := None;
                     u_analysis := Some ∅;
                     u_final_report := None |}, m'))
  ∧ new_events m (research W json_dumps template_format query m).2
    = [ev_now; ev_node "planner"; ev_llm input; ev_node "searcher";
       ev_search query; ev_node "analyzer"; ev_node "reporter";
       ev_llm [HumanMessage prompt]]
  ∧ ∀ report, w_llm W t3 [HumanMessage prompt] = inr report →
      (research W json_dumps template_format query m).1
      = inr {| error := None;
               res_messages :=
                 Some [HumanMessage query; AIMessage plan; note;
                       AIMessage "No search results to analyze."; AIMessage report];
               res_research_query := Some query;
               res_search_results := Some [];
               res_analysis := Some ∅;
               res_final_report := Some report |}.
Proof.
  intros input t1 t2 t3 prompt note s1 s2 Hplan Hsearch.
  split; [|split].
  - intros mem. rewrite web_searcher_run. cbn [trace research_query s1].
    by rewrite Hsearch.
  - intros m'. by apply content_analyzer_empty.
  - rewrite research_unfold. unfold workflow_invoke.
    rewrite create_workflow_steps. unfold invoke.
    rewrite run_from_cons. cbn [handler step_name planner].
    rewrite research_planner_run.
    cbn [trace log_events messages initial_state]. rewrite <- !app_assoc. cbn [app].
    fold input t1. rewrite Hplan.
    rewrite run_from_cons. cbn [handler step_name searcher].
    rewrite web_searcher_run.
    cbn [trace log_events checkpointed]. rewrite <- !app_assoc. cbn [app].
    change (research_query (merge _ _)) with query.
    fold input t2. rewrite Hsearch.
    rewrite run_from_cons. cbn [handler step_name analyzer].
    rewrite content_analyzer_empty by reflexivity.
    rewrite run_from_cons. cbn [handler step_name reporter].
    rewrite report_generator_run by constructor.
    cbn [trace log_events checkpointed]. rewrite <- !app_assoc. cbn [app].
    change (template_format report_template _) with prompt.
    fold input t3.
    destruct (w_llm W t3 [HumanMessage prompt]) as [e'|text].
    + split; [|done].
      cbn [snd]. unfold new_events, checkpointed, log_events. cbn [trace].
      rewrite <- !app_assoc. cbn [app]. by rewrite drop_app_length.
    + cbn [run_from]. unfold ret. cbn [fst snd]. split.
      * unfold new_events, checkpointed, log_events. cbn [trace].
        rewrite <- !app_assoc. cbn [app]. by rewrite drop_app_length.
      * intros report [= <-]. reflexivity.
Qed.

Lemma search_failure_absorbed_witness :
  (research Sample.no_search Sample.dumps Sample.format "q" Sample.fresh).1
  = inr {| error := None;
           res_messages :=
             Some [HumanMessage "q"; AIMessage "PLAN";
                   AIMessage "Search error: connection refused";
                   AIMessage "No search results to analyze."; AIMessage "REPORT_X"];
           res_research_query := Some "q";
           res_search_results := Some [];
           res_analysis := Some ∅;
           res_final_report := Some "REPORT_X" |}.
Proof.
  apply (search_failure_absorbed Sample.no_search Sample.dumps Sample.format "q"
           Sample.fresh (Exception "connection refused") "PLAN");
    reflexivity.
Defined.

(** * Further properties: texts *)

Lemma string_app_cons (x : Ascii.ascii) (a b : string) :
  String x a +:+ b = String x (a +:+ b).
Proof. reflexivity. Qed.

Lemma string_app_nil_l (b : string) : EmptyString +:+ b = b.
Proof. reflexivity. Qed.

Lemma string_app_assoc (a b c : string) : (a +:+ b) +:+ c = a +:+ (b +:+ c).
Proof.
  induction a as [|x a IH]; [done|].
  rewrite !string_app_cons. by f_equal.
Qed.

Lemma string_app_nil_r (a : string) : a +:+ EmptyString = a.
Proof.
  induction a as [|x a IH]; [done|].
  rewrite string_app_cons. by f_equal.
Qed.

Lemma string_length_app (a b : string) :
  String.length (a +:+ b) = String.length a + String.length b.
Proof.
  induction a as [|x a IH]; [done|].
  rewrite string_app_cons. cbn. by f_equal.
Qed.

Lemma rev_app_append (a b : string) : String.rev_app a b = String.rev a +:+ b.
Proof.
  revert b. induction a as [|x a IH]; intros b; [done|].
  unfold String.rev; cbn. rewrite (IH (String x b)), (IH (String x EmptyString)).
  by rewrite string_app_assoc.
Qed.

Lemma rev_cons (x : Ascii.ascii) (a : string) :
  String.rev (String x a) = String.rev a +:+ String x EmptyString.
Proof. unfold String.rev at 1; cbn. apply rev_app_append. Qed.

Lemma rev_append (a b : string) :
  String.rev (a +:+ b) = String.rev b +:+ String.rev a.
Proof.
  induction a as [|x a IH].
  - by rewrite string_app_nil_l, string_app_nil_r.
  - by rewrite string_app_cons, !rev_cons, IH, string_app_assoc.
Qed.

Lemma rev_involutive (a : string) : String.rev (String.rev a) = a.
Proof.
  induction a as [|x a IH]; [done|].
  by rewrite rev_cons, rev_append, IH.
Qed.

Lemma rev_length (a : string) : String.length (String.rev a) = String.length a.
Proof.
  induction a as [|x a IH]; [done|].
  rewrite rev_cons, string_length_app, IH. cbn. lia.
Qed.

(** * [strip] *)

Lemma lstrip_trimmed (s : string) : trimmed_left (Py.lstrip s).
Proof.
  induction s as [|c s IH]; cbn; [done|].
  destruct (Py.isspace c) eqn:Hc; [done|]. cbn. done.
Qed.

Lemma lstrip_id (s : string) : trimmed_left s → Py.lstrip s = s.
Proof. destruct s as [|c s]; cbn; [done|]. by intros ->. Qed.

Lemma lstrip_length (s : string) :
  (String.length (Py.lstrip s) ≤ String.length s)%nat.
Proof.
  induction s as [|c s IH]; cbn; [done|].
  destruct (Py.isspace c); cbn; lia.
Qed.

(** [lstrip] removes a prefix of white space. *)
Lemma lstrip_split (s : string) :
  ∃ p, s = p +:+ Py.lstrip s
       ∧ ∀ c rest, String.rev p = String c rest → Py.isspace c = true.
Proof.
  induction s as [|c s (p & Hs & Hp)]; cbn.
  - by exists EmptyString.
  - destruct (Py.isspace c) eqn:Hc.
    + exists (String c p). split; [rewrite string_app_cons; by f_equal|].
      intros c' rest. rewrite rev_cons.
      destruct (String.rev p) as [|c'' r] eqn:Hr; cbn.
      * by intros [= <- _].
      * intros [= <- _]. by eapply Hp.
    + by exists EmptyString.
Qed.

Lemma rstrip_trimmed_left (s : string) :
  trimmed_left s → trimmed_left (Py.rstrip s).
Proof.
  intros Hs. unfold Py.rstrip.
  destruct (lstrip_split (String.rev s)) as (p & Hsplit & Hp).
  apply (f_equal String.rev) in Hsplit.
  rewrite rev_involutive, rev_append in Hsplit.
  destruct (String.rev (Py.lstrip (String.rev s))) as [|c r] eqn:Hr; [done|].
  cbn. rewrite Hsplit in Hs. done.
Qed.

Lemma rstrip_empty_or (s : string) :
  trimmed_left s → Py.rstrip s = EmptyString → s = EmptyString.
Proof.
  unfold Py.rstrip. intros Hs Hr.
  destruct (lstrip_split (String.rev s)) as (p & Hsplit & Hp).
  apply (f_equal String.rev) in Hsplit.
  rewrite rev_involutive, rev_append, Hr in Hsplit. cbn in Hsplit.
  destruct s as [|c s']; [done|]. cbn in Hs.
  symmetry in Hsplit. apply Hp in Hsplit. congruence.
Qed.

Lemma strip_idempotent (s : string) : Py.strip (Py.strip s) = Py.strip s.
Proof.
  unfold Py.strip.
  pose proof (lstrip_trimmed s) as Hl.
  pose proof (rstrip_trimmed_left _ Hl) as Hb.
  rewrite (lstrip_id _ Hb).
  unfold Py.rstrip at 1 2.
  rewrite rev_involutive.
  rewrite (lstrip_id (Py.lstrip (String.rev (Py.lstrip s)))); [done|].
  apply lstrip_trimmed.
Qed.

Lemma strip_length (s : string) :
  (String.length (Py.strip s) ≤ String.length s)%nat.
Proof.
  unfold Py.strip, Py.rstrip. rewrite rev_length.
  etrans; [apply lstrip_length|]. rewrite rev_length. apply lstrip_length.
Qed.

(** * Slices *)

Lemma slice_to_prefix (n : nat) (s : string) :
  String.length (Py.slice_to n s) = min n (String.length s)
  ∧ ∃ rest, s = Py.slice_to n s +:+ rest.
Proof.
  unfold Py.slice_to. revert s. induction n as [|n IH]; intros s.
  - destruct s; cbn; (split; [done|]); by eexists.
  - destruct s as [|c s]; cbn.
    + split; [done|]. by exists EmptyString.
    + destruct (IH s) as (Hlen & rest & Hrest). split; [by rewrite Hlen|].
      exists rest. rewrite string_app_cons. by f_equal.
Qed.

(** * [analyze_research_content] *)

Lemma filter_nothing {A : Type} (keep : A → bool) (l : list A) :
  Forall (λ x, keep x = false) l → List.filter keep l = [].
Proof. induction 1 as [|x l Hx _ IH]; [done|]. cbn [List.filter]. by rewrite Hx. Qed.

(** X1: [analyze_research_content] never raises and reads the clock once;
    it keeps at most five key points, each longer than 50 characters,
    each without white space at either end, and each the stripped form of
    a line of the content. *)
Theorem analyze_research_content_key_points (W : world) (content topic : string)
    (m : machine) :
  ∃ points,
    analyze_research_content W content topic m
    = (inr {[ "topic" := PStr topic;
              "content_length" := PInt (String.length content);
              "key_points" := PStrList points;
              "analysis_timestamp" := PStr (w_isoformat W (trace m)) ]},
       log_events m [ev_now])
    ∧ (length points ≤ 5)%nat
    ∧ Forall (λ point,
                (50 < String.length point)%nat
                ∧ Py.strip point = point
                ∧ ∃ line, line ∈ Py.split_lines content ∧ point = Py.strip line)
        points.
Proof.
  exists (take 5 (key_points_of content)). split; [done|].
  split; [rewrite length_take; lia|].
  apply Forall_take, Forall_forall. intros point Hin.
  unfold key_points_of in Hin.
  apply list_elem_of_In, filter_In in Hin as [Hin Hkeep].
  apply list_elem_of_In, list_elem_of_fmap in Hin as (line & -> & Hline).
  apply andb_prop in Hkeep as [_ Hlong]. apply Nat.ltb_lt in Hlong.
  split; [done|]. split; [apply strip_idempotent|]. by exists line.
Qed.

(** X2: when no line of the content is longer than 50 characters, the
    analysis has an empty list of key points. *)
Theorem analyze_research_content_short_lines (W : world) (content topic : string)
    (m : machine) :
  Forall (λ line, (String.length line ≤ 50)%nat) (Py.split_lines content) →
  ∃ a, (analyze_research_content W content topic m).1 = inr a
       ∧ a !! "key_points" = Some (PStrList []).
Proof.
  intros Hshort.
  assert (key_points_of content = []) as Hnone.
  { unfold key_points_of. apply filter_nothing, Forall_fmap.
    eapply Forall_impl; [exact Hshort|]. intros line Hline; cbv beta in *.
    pose proof (strip_length line) as Hle.
    apply andb_false_intro2, Nat.ltb_ge. lia. }
  eexists. split; [reflexivity|]. rewrite Hnone. cbn.
  rewrite !lookup_insert_ne by done. by rewrite lookup_insert_eq.
Qed.

Lemma analyze_research_content_short_lines_witness :
  ∃ a, (analyze_research_content Sample.healthy
          ("Title: T1" +:+ Py.nl +:+ "Content: C1") "q" Sample.fresh).1 = inr a
       ∧ a !! "key_points" = Some (PStrList []).
Proof.
  apply (analyze_research_content_short_lines Sample.healthy
           ("Title: T1" +:+ Py.nl +:+ "Content: C1") "q" Sample.fresh).
  repeat constructor; vm_compute; lia.
Defined.

(** * [research_planner] *)

Lemma first_human_message (pre post : list message) (text : string) :
  Forall (λ msg, is_HumanMessage msg = false) pre →
  List.filter is_HumanMessage (pre ++ HumanMessage text :: post)
  = HumanMessage text :: List.filter is_HumanMessage post.
Proof.
  induction 1 as [|msg pre Hmsg _ IH]; [done|].
  cbn [app List.filter]. by rewrite Hmsg.
Qed.

(** X3: when the model answers, the planner sets [research_query] to the
    content of the first [HumanMessage] of the state, whatever stands
    before it, and to the empty text when the state has none. *)
Theorem research_planner_query (W : world) (s : AgentState) (m : machine)
    (plan : string) :
  w_llm W (trace m) (SystemMessage planner_instructions :: messages s) = inr plan →
  ∃ p,
    (research_planner W s m).1 = inr p
    ∧ (∀ pre text post,
         messages s = pre ++ HumanMessage text :: post →
         Forall (λ msg, is_HumanMessage msg = false) pre →
         u_research_query p = Some text)
    ∧ (Forall (λ msg, is_HumanMessage msg = false) (messages s) →
       u_research_query p = Some EmptyString).
Proof.
  intros Hplan. rewrite research_planner_run, Hplan. cbn [fst].
  eexists. split; [done|]. cbn [u_research_query]. split.
  - intros pre text post -> Hpre. by rewrite first_human_message.
  - intros Hnone. by rewrite filter_nothing.
Qed.

Lemma research_planner_query_witness :
  ∃ p,
    (research_planner Sample.healthy
       (mkState [AIMessage "earlier"; HumanMessage "first"; HumanMessage "second"]
          "old" [] ∅ EmptyString) Sample.fresh).1 = inr p
    ∧ u_research_query p = Some "first".
Proof.
  destruct (research_planner_query Sample.healthy
              (mkState [AIMessage "earlier"; HumanMessage "first"; HumanMessage "second"]
                 "old" [] ∅ EmptyString) Sample.fresh "PLAN")
    as (p & Hp & Hfirst & _); [reflexivity|].
  exists p. split; [exact Hp|].
  apply (Hfirst [AIMessage "earlier"] "first" [HumanMessage "second"]).
  - reflexivity.
  - repeat constructor.
Defined.

(** * [web_searcher] *)

(** X4: the search step never raises, whatever the search tool does: it
    makes one call to the tool, with the [research_query] of the state,
    and returns one message and a list of search results. *)
Theorem web_searcher_never_raises (W : world) (s : AgentState) (m : machine) :
  ∃ note results,
    web_searcher W s m
    = (inr {| u_messages := Some [AIMessage note];
              u_research_query := None;
              u_search_results := Some results;
              u_analysis := None;
              u_final_report := None |},
       log_events m [ev_search (research_query s)]).
Proof.
  rewrite web_searcher_run.
  destruct (w_search W (trace m) (research_query s)); by eexists _, _.
Qed.

Lemma dicts_of_length (raw : list raw_result) :
  (length (dicts_of raw) ≤ length raw)%nat
  ∧ (length (dicts_of raw) = length raw ↔ Forall (λ r, r ≠ raw_other) raw).
Proof.
  induction raw as [|[d|] raw [IHle IHeq]].
  - split; [done|]. split; [constructor|done].
  - change (dicts_of (raw_dict d :: raw)) with (d :: dicts_of raw).
    cbn [length]. split; [lia|]. split.
    + intros [= Hlen]. constructor; [done|]. by apply IHeq.
    + intros Hall. f_equal. apply IHeq. by inversion Hall.
  - change (dicts_of (raw_other :: raw)) with (dicts_of raw).
    cbn [length]. split; [lia|]. split.
    + intros Hlen. lia.
    + intros Hall. by inversion Hall.
Qed.

(** X5: when the search tool answers, the number in the "Found n relevant
    sources" message is the number of results kept; it is at most the
    number of raw elements, and equal to it exactly when every raw element
    is a dictionary. *)
Theorem web_searcher_count (W : world) (s : AgentState) (m : machine)
    (raw : list raw_result) :
  w_search W (trace m) (research_query s) = inr raw →
  ∃ p results,
    (web_searcher W s m).1 = inr p
    ∧ u_search_results p = Some results
    ∧ u_messages p
      = Some [AIMessage ("Found " +:+ Py.str_of_nat (length results)
                         +:+ " relevant sources for: " +:+ research_query s)]
    ∧ (length results ≤ length raw)%nat
    ∧ (length results = length raw ↔ Forall (λ r, r ≠ raw_other) raw).
Proof.
  intros Hraw. rewrite web_searcher_run, Hraw. cbn [fst].
  eexists _, _. split; [done|]. split; [done|]. split; [done|].
  rewrite format_results_dicts, length_fmap. apply dicts_of_length.
Qed.

Lemma web_searcher_count_witness :
  ∃ p results,
    (web_searcher Sample.healthy Sample.state Sample.fresh).1 = inr p
    ∧ u_search_results p = Some results
    ∧ u_messages p = Some [AIMessage "Found 2 relevant sources for: q"]
    ∧ (length results ≤ 3)%nat.
Proof.
  destruct (web_searcher_count Sample.healthy Sample.state Sample.fresh
              Sample.two_results) as (p & results & Hp & Hres & Hmsg & Hle & _);
    [reflexivity|].
  exists p, results. split; [exact Hp|]. split; [exact Hres|]. split; [|exact Hle].
  rewrite Hmsg. vm_compute in Hp, Hres. injection Hp as <-. injection Hres as <-.
  reflexivity.
Defined.

Lemma dicts_of_raw_dict (ds : list (gmap string value)) :
  dicts_of (raw_dict <$> ds) = ds.
Proof. induction ds as [|d ds IH]; cbn; [done|]. by f_equal. Qed.

Lemma formatted_again (d : gmap string value) :
  let r : gmap string value :=
    {[ "title" := get_default d "title" (VStr EmptyString);
       "content" := get_default d "content" (VStr EmptyString);
       "url" := get_default d "url" (VStr EmptyString) ]} in
  ({[ "title" := get_default r "title" (VStr EmptyString);
      "content" := get_default r "content" (VStr EmptyString);
      "url" := get_default r "url" (VStr EmptyString) ]} : gmap string value) = r.
Proof.
  intros r. unfold get_default at 1 2 3.
  destruct (formatted_lookup (get_default d "title" (VStr EmptyString))
              (get_default d "content" (VStr EmptyString))
              (get_default d "url" (VStr EmptyString))) as (Ht & Hc & Hu & _).
  fold r in Ht, Hc, Hu. by rewrite Ht, Hc, Hu.
Qed.

(** X6: formatting again what the search step formatted changes
    nothing. *)
Theorem format_results_idempotent (raw : list raw_result) :
  format_results (raw_dict <$> format_results raw) = format_results raw.
Proof.
  rewrite (format_results_dicts (raw_dict <$> _)), dicts_of_raw_dict.
  rewrite format_results_dicts, <- list_fmap_compose.
  apply list_fmap_ext. intros _ d _. apply formatted_again.
Qed.

(** X7: the results formatted from two raw answers put end to end are
    the results of the first followed by the results of the second. *)
Theorem format_results_app (raw raw' : list raw_result) :
  format_results (raw ++ raw') = format_results raw ++ format_results raw'.
Proof.
  rewrite !format_results_dicts. unfold dicts_of.
  by rewrite omap_app, fmap_app.
Qed.

(** X8: when the search tool answers without a single dictionary, the
    search step reports "Found 0 relevant sources" with no results, and
    the analyze step on the merged state takes its empty branch. *)
Theorem web_searcher_no_dictionaries (W : world) (s : AgentState) (m : machine)
    (raw : list raw_result) :
  w_search W (trace m) (research_query s) = inr raw →
  Forall (λ r, r = raw_other) raw →
  ∃ p,
    (web_searcher W s m).1 = inr p
    ∧ u_search_results p = Some []
    ∧ u_messages p
      = Some [AIMessage ("Found 0 relevant sources for: " +:+ research_query s)]
    ∧ ∀ m', content_analyzer W (merge s p) m'
            = (inr {| u_messages := Some [AIMessage "No search results to analyze."];
                      u_research_query := None;
                      u_search_results := None;
                      u_analysis := Some ∅;
                      u_final_report := None |}, m').
Proof.
  intros Hraw Hnone. rewrite web_searcher_run, Hraw. cbn [fst].
  assert (format_results raw = []) as ->.
  { rewrite format_results_dicts. clear Hraw.
    induction Hnone as [|r raw -> _ IH]; [done|exact IH]. }
  eexists. split; [done|]. split; [done|]. split; [done|].
  intros m'. by apply content_analyzer_empty.
Qed.

Lemma web_searcher_no_dictionaries_witness :
  ∃ p,
    (web_searcher
       (mkWorld (w_llm Sample.healthy) (λ _ _, inr [raw_other; raw_other])
          (w_timestamp Sample.healthy) (w_isoformat Sample.healthy))
       Sample.state Sample.fresh).1 = inr p
    ∧ u_search_results p = Some []
    ∧ u_messages p = Some [AIMessage "Found 0 relevant sources for: q"].
Proof.
  destruct (web_searcher_no_dictionaries
              (mkWorld (w_llm Sample.healthy) (λ _ _, inr [raw_other; raw_other])
                 (w_timestamp Sample.healthy) (w_isoformat Sample.healthy))
              Sample.state Sample.fresh [raw_other; raw_other])
    as (p & Hp & Hres & Hmsg & _).
  - reflexivity.
  - repeat constructor.
  - by exists p.
Defined.

(** * Missing keys *)

Lemma title_and_content_readable (result : gmap string value) (m : machine) :
  readable result →
  title_and_content result m
  = (inr ("Title: " +:+ py_str (get_default result "title" (VStr EmptyString))
          +:+ Py.nl +:+ "Content: "
          +:+ py_str (get_default result "content" (VStr EmptyString))), m).
Proof.
  intros Hr. apply readable_get_default in Hr as [Ht Hc].
  unfold title_and_content, getitem, bind. by rewrite Ht, Hc.
Qed.

Lemma title_and_content_unreadable (result : gmap string value) (m : machine) :
  ¬ readable result →
  title_and_content result m
  = (inl (KeyError match result !! "title" with
                   | Some _ => "content"
                   | None => "title"
                   end), m).
Proof.
  intros Hr. unfold title_and_content, getitem, bind.
  destruct (result !! "title") as [t|] eqn:Ht; [|done].
  destruct (result !! "content") as [c|] eqn:Hc; [|done].
  destruct Hr. unfold readable. rewrite Ht, Hc. eauto.
Qed.

Lemma summary_line_unreadable (result : gmap string value) (m : machine) :
  ¬ readable result →
  summary_line result m
  = (inl (KeyError match result !! "title" with
                   | Some _ => "content"
                   | None => "title"
                   end), m).
Proof.
  intros Hr. unfold summary_line, getitem, bind.
  destruct (result !! "title") as [t|] eqn:Ht; [|done].
  destruct (result !! "content") as [c|] eqn:Hc; [|done].
  destruct Hr. unfold readable. rewrite Ht, Hc. eauto.
Qed.

(** X9: on a state whose search results are readable up to one that
    lacks [title] or [content], the analyze step raises the [KeyError] of
    the first key missing there, before it reads the clock. *)
Theorem content_analyzer_missing_key (W : world) (s : AgentState) (m : machine)
    (pre : list (gmap string value)) (bad : gmap string value)
    (post : list (gmap string value)) :
  search_results s = pre ++ bad :: post →
  Forall readable pre →
  ¬ readable bad →
  content_analyzer W s m
  = (inl (KeyError match bad !! "title" with
                   | Some _ => "content"
                   | None => "title"
                   end), m).
Proof.
  intros Hs Hpre Hbad. unfold content_analyzer. rewrite Hs.
  destruct (pre ++ bad :: post) as [|first others] eqn:Hl.
  { by destruct pre. }
  rewrite <- Hl. unfold bind at 1.
  rewrite (mapM_stops_at title_and_content
             (λ r, "Title: " +:+ py_str (get_default r "title" (VStr EmptyString))
                   +:+ Py.nl +:+ "Content: "
                   +:+ py_str (get_default r "content" (VStr EmptyString)))
             pre bad post m _ (Forall_impl _ _ _ Hpre
                                 (λ r Hr, title_and_content_readable r m Hr))
             (title_and_content_unreadable bad m Hbad)).
  done.
Qed.

Lemma content_analyzer_missing_key_witness :
  content_analyzer Sample.healthy
    (mkState [] "q"
       [ {[ "title" := VStr "T"; "content" := VStr "C" ]}; {[ "title" := VStr "T2" ]} ]
       ∅ EmptyString) Sample.fresh
  = (inl (KeyError "content"), Sample.fresh).
Proof.
  rewrite (content_analyzer_missing_key Sample.healthy
             (mkState [] "q"
                [ {[ "title" := VStr "T"; "content" := VStr "C" ]};
                  {[ "title" := VStr "T2" ]} ]
                ∅ EmptyString) Sample.fresh
             [ {[ "title" := VStr "T"; "content" := VStr "C" ]} ]
             {[ "title" := VStr "T2" ]} []).
  - by vm_compute.
  - reflexivity.
  - repeat constructor; by eexists.
  - intros [_ [c Hc]]. vm_compute in Hc. discriminate Hc.
Defined.

(** X11: when one of the first three search results lacks [title] or
    [content], and the results before it each have a title and a content
    of which [content[:200]] can be taken, the report step raises the
    [KeyError] of the first missing key without calling the language
    model. *)
Theorem report_generator_missing_key (W : world)
    (json_dumps : gmap string pyval → string)
    (template_format : string → list (string * string) → string)
    (s : AgentState) (m : machine)
    (pre : list (gmap string value)) (bad : gmap string value)
    (post : list (gmap string value)) :
  take 3 (search_results s) = pre ++ bad :: post →
  Forall summarizable pre →
  ¬ readable bad →
  report_generator W json_dumps template_format s m
  = (inl (KeyError match bad !! "title" with
                   | Some _ => "content"
                   | None => "title"
                   end), m).
Proof.
  intros Hs Hpre Hbad. unfold report_generator. rewrite Hs. unfold bind at 1.
  rewrite (mapM_stops_at summary_line bullet pre bad post m _
             (Forall_impl _ _ _ Hpre (λ r Hr, summary_line_summarizable r m Hr))
             (summary_line_unreadable bad m Hbad)).
  done.
Qed.

Lemma report_generator_missing_key_witness :
  report_generator Sample.healthy Sample.dumps Sample.format
    (mkState [] "q"
       [ {[ "title" := VStr "T"; "content" := VStr "C" ]}; {[ "content" := VStr "C" ]} ]
       ∅ EmptyString) Sample.fresh
  = (inl (KeyError "title"), Sample.fresh).
Proof.
  rewrite (report_generator_missing_key Sample.healthy Sample.dumps Sample.format
             (mkState [] "q"
                [ {[ "title" := VStr "T"; "content" := VStr "C" ]};
                  {[ "content" := VStr "C" ]} ]
                ∅ EmptyString) Sample.fresh
             [ {[ "title" := VStr "T"; "content" := VStr "C" ]} ]
             {[ "content" := VStr "C" ]} []).
  - by vm_compute.
  - reflexivity.
  - repeat constructor; [by eexists|]. eexists _, _. split; reflexivity.
  - intros [[t Ht] _]. vm_compute in Ht. discriminate Ht.
Defined.

Lemma first_unreadable (results : list (gmap string value)) :
  Forall readable results
  ∨ ∃ pre bad post,
      results = pre ++ bad :: post ∧ Forall readable pre ∧ ¬ readable bad.
Proof.
  induction results as [|r results IH]; [by left|].
  assert (readable r ∨ ¬ readable r) as [Hr|Hr].
  { unfold readable. destruct (r !! "title"), (r !! "content"); eauto;
      right; intros [[? ?] [? ?]]; done. }
  - destruct IH as [IH|(pre & bad & post & -> & Hpre & Hbad)].
    + left. by constructor.
    + right. exists (r :: pre), bad, post. split; [done|]. split; [|done].
      by constructor.
  - right. by exists [], r, results.
Qed.

Lemma content_analyzer_nonempty (W : world) (s : AgentState) (m : machine) :
  search_results s ≠ [] →
  Forall readable (search_results s) →
  ∃ result,
    content_analyzer W s m
    = (inr {| u_messages := Some [AIMessage "Content analysis completed."];
              u_research_query := None;
              u_search_results := None;
              u_analysis := Some result;
              u_final_report := None |}, log_events m [ev_now]).
Proof.
  intros Hne Hall. unfold content_analyzer.
  destruct (search_results s) as [|first others]; [done|].
  unfold bind at 1. rewrite (mapM_title_and_content _ m Hall).
  unfold analyze_research_content, bind, now_isoformat, ret. by eexists.
Qed.

(** X10: the analyze step never calls the language model or the search
    tool and leaves the checkpoints alone: it reads the clock at most
    once.  Its update has a message and an analysis and nothing else; the
    only exceptions it raises are the [KeyError] of [title] or [content],
    raised before the clock is read. *)
Theorem content_analyzer_reads_clock_only (W : world) (s : AgentState)
    (m : machine) :
  ∃ evs,
    (content_analyzer W s m).2 = log_events m evs
    ∧ (evs = [] ∨ evs = [ev_now])
    ∧ match (content_analyzer W s m).1 with
      | inr p =>
          u_research_query p = None ∧ u_search_results p = None
          ∧ u_final_report p = None
          ∧ ∃ note result, u_messages p = Some [AIMessage note]
                           ∧ u_analysis p = Some result
      | inl e => evs = [] ∧ (e = KeyError "title" ∨ e = KeyError "content")
      end.
Proof.
  destruct (first_unreadable (search_results s))
    as [Hall|(pre & bad & post & Hs & Hpre & Hbad)].
  - destruct (search_results s) as [|first others] eqn:Hs.
    + rewrite (content_analyzer_empty W s m Hs). exists [].
      rewrite log_events_nil. cbn. eauto 10.
    + rewrite <- Hs in Hall.
      destruct (content_analyzer_nonempty W s m) as (result & ->);
        [by rewrite Hs|done|].
      exists [ev_now]. cbn. eauto 10.
  - assert (content_analyzer W s m
            = (inl (KeyError match bad !! "title" with
                             | Some _ => "content"
                             | None => "title"
                             end), m)) as ->.
    { unfold content_analyzer. rewrite Hs.
      destruct (pre ++ bad :: post) as [|first others] eqn:Hl.
      { by destruct pre. }
      rewrite <- Hl. unfold bind at 1.
      by rewrite (mapM_stops_at title_and_content
                    (λ r, "Title: "
                          +:+ py_str (get_default r "title" (VStr EmptyString))
                          +:+ Py.nl +:+ "Content: "
                          +:+ py_str (get_default r "content" (VStr EmptyString)))
                    pre bad post m _
                    (Forall_impl _ _ _ Hpre
                       (λ r Hr, title_and_content_readable r m Hr))
                    (title_and_content_unreadable bad m Hbad)). }
    exists []. rewrite log_events_nil. cbn.
    split; [done|]. split; [by left|]. split; [done|].
    destruct (bad !! "title"); eauto.
Qed.

(** X12: the line of the search summary made for a result whose content
    is a text holds its title and a prefix of its content of at most 200
    characters, followed by three dots. *)
Theorem summary_line_excerpt (result : gmap string value) (m : machine)
    (title : value) (text : string) :
  result !! "title" = Some title →
  result !! "content" = Some (VStr text) →
  ∃ excerpt rest,
    summary_line result m
    = (inr ("• " +:+ py_str title +:+ ": " +:+ excerpt +:+ "..."), m)
    ∧ text = excerpt +:+ rest
    ∧ String.length excerpt = min 200 (String.length text).
Proof.
  intros Ht Hc. destruct (slice_to_prefix 200 text) as (Hlen & rest & Hrest).
  exists (Py.slice_to 200 text), rest. split; [|done].
  unfold summary_line, getitem, getslice, bind. by rewrite Ht, Hc.
Qed.

Lemma summary_line_excerpt_witness :
  ∃ excerpt rest,
    summary_line {[ "title" := VStr "T1"; "content" := VStr "C1" ]} Sample.fresh
    = (inr ("• " +:+ "T1" +:+ ": " +:+ excerpt +:+ "..."), Sample.fresh)
    ∧ "C1" = excerpt +:+ rest
    ∧ String.length excerpt = 2.
Proof.
  apply (summary_line_excerpt {[ "title" := VStr "T1"; "content" := VStr "C1" ]}
           Sample.fresh (VStr "T1") "C1"); reflexivity.
Defined.

(** * [research] *)

(** X13: [research] never raises.  Its result either has no [error] and
    all five keys of the state, or has [error] together with one "Research
    failed" message and a [final_report] with the error text, and none of
    [research_query], [search_results] and [analysis]. *)
Theorem research_always_returns (W : world)
    (json_dumps : gmap string pyval → string)
    (template_format : string → list (string * string) → string)
    (query : string) (m : machine) :
  ∃ r,
    (research W json_dumps template_format query m).1 = inr r
    ∧ ((error r = None
        ∧ is_Some (res_messages r) ∧ is_Some (res_research_query r)
        ∧ is_Some (res_search_results r) ∧ is_Some (res_analysis r)
        ∧ is_Some (res_final_report r))
       ∨ (∃ msg,
            error r = Some msg
            ∧ res_messages r = Some [AIMessage ("Research failed: " +:+ msg)]
            ∧ res_final_report r = Some ("Error occurred during research: " +:+ msg)
            ∧ res_research_query r = None
            ∧ res_search_results r = None
            ∧ res_analysis r = None)).
Proof.
  rewrite research_unfold.
  destruct (workflow_invoke _ _ _ _ _ _) as [[e|s] m']; cbn [fst]; eexists;
    (split; [done|]).
  - right. by exists (str e).
  - left. cbn. eauto 10.
Qed.

(** * [validate_api_keys] *)

(** X14: [validate_api_keys] never raises and tests both keys, the one of
    the language model first, whether or not the first test failed.  For
    each key the client is built first: when its constructor raises, no
    call is made with that key; otherwise one call is made, the message
    "Hi" to the model, the query "test" to the search tool.  A key is
    reported valid exactly when its client was built and its call
    answered, with an empty error text; otherwise the error text is the
    text of the exception of the constructor or of the call. *)
Theorem validate_api_keys_outcome
    (ChatGroq : string → exn + (list event → list message → exn + string))
    (TavilySearchResults :
       string → exn + (list event → string → exn + list raw_result))
    (groq_key tavily_key : string) (m : machine) :
  let llm_test :=
    match ChatGroq groq_key with
    | inr test_llm =>
        (test_llm (trace m) [HumanMessage "Hi"], [ev_llm [HumanMessage "Hi"]])
    | inl e => (inl e, [])
    end in
  let search_test :=
    match TavilySearchResults tavily_key with
    | inr test_search =>
        (test_search (trace m ++ llm_test.2) "test", [ev_search "test"])
    | inl e => (inl e, [])
    end in
  validate_api_keys ChatGroq TavilySearchResults groq_key tavily_key m
  = (inr {| groq_valid := answered llm_test.1;
            tavily_valid := answered search_test.1;
            groq_error := error_text llm_test.1;
            tavily_error := error_text search_test.1 |},
     log_events m (llm_test.2 ++ search_test.2)).
Proof.
  intros llm_test search_test. subst llm_test search_test.
  unfold validate_api_keys, bind, try_except, new_test_llm, new_test_search,
    test_llm_invoke, test_search_invoke, ret, log_events.
  destruct (ChatGroq groq_key) as [e1|test_llm];
    [|destruct (test_llm (trace m) _) as [e1|r1]];
    (destruct (TavilySearchResults tavily_key) as [e2|test_search];
     cbn [trace memory fst snd app]; rewrite ?app_nil_r;
     [|destruct (test_search _ _) as [e2|r2]]);
    cbn [trace memory fst snd answered error_text groq_valid tavily_valid
         groq_error tavily_error app];
    rewrite ?app_nil_r, <- ?app_assoc; try done; by destruct m.
Qed.

(** * The results display *)

(** X15: for a failed run the page shows one error box with the error
    text and nothing else: the error description that [research] stores
    under [final_report] is not shown as a report. *)
Theorem failed_run_shows_error_only (W : world)
    (json_dumps : gmap string pyval → string)
    (template_format : string → list (string * string) → string)
    (query : string) (m : machine) (r : RunResult) :
  (research W json_dumps template_format query m).1 = inr r →
  error r ≠ None →
  ∃ msg,
    show_result r = show [st_error ("Research failed: " +:+ msg)]
    ∧ res_final_report r = Some ("Error occurred during research: " +:+ msg).
Proof.
  rewrite research_unfold.
  destruct (workflow_invoke _ _ _ _ _ _) as [[e|s] m']; cbn [fst];
    intros [= <-] Herr; [|done].
  by exists (str e).
Qed.

Lemma failed_run_shows_error_only_witness :
  ∃ msg,
    show_result
      (failure (Exception "invalid api key"))
    = show [st_error ("Research failed: " +:+ msg)]
    ∧ res_final_report (failure (Exception "invalid api key"))
      = Some ("Error occurred during research: " +:+ msg).
Proof.
  apply (failed_run_shows_error_only Sample.no_llm Sample.dumps Sample.format "q"
           Sample.fresh (failure (Exception "invalid api key"))).
  - by vm_compute.
  - discriminate.
Defined.

(** X16: a source that the search step formatted is shown under the title
    of the raw result, or under an empty title when the raw result had
    none, never under "Untitled".  The link is shown exactly when the raw
    url is true in an [if]; the excerpt [content[:300]] and the rule after
    it are shown when the raw content is true in an [if] and the slice can
    be taken; when taking the slice raises, the display of the source ends
    there with that exception, after the title and the link.  A raw
    content that is a text gives an excerpt of at most 300 characters. *)
Theorem show_source_of_formatted (d : gmap string value) (j : nat) :
  let title := default (VStr EmptyString) (d !! "title") in
  let url := default (VStr EmptyString) (d !! "url") in
  let body := default (VStr EmptyString) (d !! "content") in
  let head :=
    [st_markdown ("**" +:+ Py.str_of_nat j +:+ ". " +:+ py_str title +:+ "**")]
    ++ (if py_truthy url
        then [st_markdown ("🔗 [Source Link](" +:+ py_str url +:+ ")")]
        else []) in
  ∃ r,
    format_results [raw_dict d] = [r]
    ∧ show_source j r
      = (if py_truthy body
         then match py_slice 300 body with
              | inr part =>
                  (head ++ [st_markdown (py_str part +:+ "..."); st_markdown "---"],
                   None)
              | inl e => (head, Some e)
              end
         else (head ++ [st_markdown "---"], None))
    ∧ ∀ text, body = VStr text →
        show_source j r
        = show (head
                ++ (if truthy text
                    then [st_markdown (Py.slice_to 300 text +:+ "...")]
                    else [])
                ++ [st_markdown "---"]).
Proof.
  intros title url body head.
  assert (show_source j
            {[ "title" := get_default d "title" (VStr EmptyString);
               "content" := get_default d "content" (VStr EmptyString);
               "url" := get_default d "url" (VStr EmptyString) ]}
          = (if py_truthy body
             then match py_slice 300 body with
                  | inr part =>
                      (head ++ [st_markdown (py_str part +:+ "..."); st_markdown "---"],
                       None)
                  | inl e => (head, Some e)
                  end
             else (head ++ [st_markdown "---"], None))) as Hshow.
  { unfold show_source, get_default at 1.
    destruct (formatted_lookup (get_default d "title" (VStr EmptyString))
                (get_default d "content" (VStr EmptyString))
                (get_default d "url" (VStr EmptyString))) as (Ht & Hc & Hu & _).
    cbv zeta in Ht, Hc, Hu. rewrite Ht, Hc, Hu.
    subst head. fold title url body.
    unfold get_default. fold title url body.
    destruct (py_truthy url), (py_truthy body);
      [destruct (py_slice 300 body)| |destruct (py_slice 300 body)|]; reflexivity. }
  eexists. split; [reflexivity|]. split; [exact Hshow|].
  intros text Htext. change (foldl format_step [] [raw_dict d]) with
    [({[ "title" := get_default d "title" (VStr EmptyString);
         "content" := get_default d "content" (VStr EmptyString);
         "url" := get_default d "url" (VStr EmptyString) ]} : gmap string value)].
  rewrite Hshow, Htext. unfold py_truthy, py_slice, py_str, truthy, show.
  by destruct (negb (String.eqb text EmptyString)).
Qed.

Lemma show_entries_all (i : nat) (entries : list HistoryEntry) :
  Forall (λ entry, (show_result (h_result entry)).2 = None) entries →
  show_entries i entries
  = show (imap (λ k entry,
                  st_expander
                    ("📊 Research: " +:+ Py.slice_to 50 (h_query entry)
                     +:+ "... (" +:+ h_timestamp entry +:+ ")")
                    (bool_decide (i + k = 0))
                    (show_result (h_result entry)).1)
            entries).
Proof.
  intros Hall. revert i.
  induction Hall as [|entry entries Hentry _ IH]; intros i; [done|].
  cbn [show_entries imap]. unfold show_entry. rewrite Hentry, (IH (S i)).
  unfold and_then, show; cbn [fst snd app]. rewrite Nat.add_0_r.
  f_equal. f_equal. apply imap_ext. intros k entry' _; cbn.
  by rewrite Nat.add_succ_r.
Qed.

Lemma show_entries_lookup (i : nat) (pre : list HistoryEntry)
    (entry : HistoryEntry) (post : list HistoryEntry) :
  Forall (λ newer, (show_result (h_result newer)).2 = None) pre →
  (show_entries i (pre ++ entry :: post)).1 !! length pre
  = Some (st_expander
            ("📊 Research: " +:+ Py.slice_to 50 (h_query entry)
             +:+ "... (" +:+ h_timestamp entry +:+ ")")
            (bool_decide (i + length pre = 0))
            (show_result (h_result entry)).1).
Proof.
  intros Hpre. revert i.
  induction Hpre as [|newer pre Hnewer _ IH]; intros i; cbn [app show_entries length].
  - unfold show_entry, and_then. rewrite Nat.add_0_r.
    by destruct (show_result (h_result entry)).2.
  - unfold show_entry at 1, and_then. rewrite Hnewer. cbn [fst snd app].
    rewrite Nat.add_succ_r. exact (IH (S i)).
Qed.

(** X17: after an entry is appended to the history, the page shows it
    first and expanded.  When showing it raises, nothing follows.  An
    older entry is shown, collapsed and at its place counted from the
    newest, when showing none of the entries newer than it raised; when
    no entry raises, all of them are shown, newest first, and the display
    ends without an exception. *)
Theorem show_history_newest_first (research_history : list HistoryEntry)
    (latest : HistoryEntry) :
  ∃ older,
    (show_history (research_history ++ [latest])).1
    = st_header "Research Results"
      :: st_expander
           ("📊 Research: " +:+ Py.slice_to 50 (h_query latest)
            +:+ "... (" +:+ h_timestamp latest +:+ ")")
           true (show_result (h_result latest)).1
      :: older
    ∧ (∀ e, (show_result (h_result latest)).2 = Some e →
            older = [] ∧ (show_history (research_history ++ [latest])).2 = Some e)
    ∧ (∀ i entry,
         research_history !! i = Some entry →
         Forall (λ newer, (show_result (h_result newer)).2 = None)
           (drop (S i) research_history ++ [latest]) →
         older !! (length research_history - S i)
         = Some (st_expander
                   ("📊 Research: " +:+ Py.slice_to 50 (h_query entry)
                    +:+ "... (" +:+ h_timestamp entry +:+ ")")
                   false (show_result (h_result entry)).1))
    ∧ (Forall (λ entry, (show_result (h_result entry)).2 = None)
         (research_history ++ [latest]) →
       (show_history (research_history ++ [latest])).2 = None
       ∧ length older = length research_history).
Proof.
  unfold show_history.
  destruct (research_history ++ [latest]) as [|first others] eqn:Hl.
  { by destruct research_history. }
  rewrite <- Hl, reverse_app. change (reverse [latest]) with [latest].
  cbn [app show_entries]. unfold show_entry.
  destruct (show_result (h_result latest)).2 as [e|] eqn:Hlatest.
  - exists []. unfold and_then, show; cbn [fst snd app].
    split; [done|]. split; [by intros e' [= <-]|]. split.
    + intros i entry _ Hall. apply Forall_app in Hall as [_ Hall].
      apply Forall_inv in Hall. congruence.
    + intros Hall. apply Forall_app in Hall as [_ Hall].
      apply Forall_inv in Hall. congruence.
  - exists (show_entries 1 (reverse research_history)).1.
    unfold and_then, show; cbn [fst snd app].
    split; [done|]. split; [done|]. split.
    + intros i entry Hi Hall. apply Forall_app in Hall as [Hall _].
      pose proof (lookup_lt_Some _ _ _ Hi) as Hlt.
      rewrite <- (take_drop_middle research_history i entry Hi) at 2.
      rewrite reverse_app, reverse_cons, <- app_assoc. cbn [app].
      replace (length research_history - S i)
        with (length (reverse (drop (S i) research_history)))
        by (rewrite length_reverse, length_drop; lia).
      rewrite show_entries_lookup by (by apply Forall_reverse).
      by rewrite bool_decide_eq_false_2 by lia.
    + intros Hall. apply Forall_app in Hall as [Hall _].
      rewrite show_entries_all by (by apply Forall_reverse).
      unfold show; cbn [fst snd].
      split; [done|]. by rewrite length_imap, length_reverse.
Qed.

Lemma show_history_newest_first_witness :
  let earlier := mkEntry "first" (failure (Exception "invalid api key")) "t1" in
  let latest := mkEntry "second" (failure (Exception "timeout")) "t2" in
  show_history [earlier; latest]
  = show [st_header "Research Results";
          st_expander "📊 Research: second... (t2)" true
            [st_error "Research failed: timeout"];
          st_expander "📊 Research: first... (t1)" false
            [st_error "Research failed: invalid api key"]].
Proof.
  intros earlier latest.
  destruct (show_history_newest_first [earlier] latest)
    as (older & Hshown & _ & Holder & Hall).
  destruct Hall as (Hdone & Hlen); [by repeat constructor|].
  specialize (Holder 0 earlier eq_refl).
  destruct older as [|entry [|? ?]]; [done| |done].
  cbn in Holder. injection Holder as ->; [|by repeat constructor].
  change ([earlier] ++ [latest]) with [earlier; latest] in Hshown, Hdone.
  destruct (show_history [earlier; latest]) as [ws raised].
  cbn [fst snd] in Hshown, Hdone. by rewrite Hshown, Hdone.
Defined.

(** * The steps together *)




(** X18: a run calls the language model first with the planner's
    instructions followed by the user's query; when that call raises it is
    the only call.  Otherwise the search step runs, and when each of the
    first three results it kept has a content of which [content[:200]]
    can be taken (as when the search raised and nothing was kept), there
    is exactly one more call, with a single [HumanMessage]; when one of
    them has not, the report step raises before its call and the
    planner's call stays the only one. *)
Theorem research_model_calls (W : world)
    (json_dumps : gmap string pyval → string)
    (template_format : string → list (string * string) → string)
    (query : string) (m : machine) :
  let input := [SystemMessage planner_instructions; HumanMessage query] in
  let calls :=
    llm_calls (new_events m (research W json_dumps template_format query m).2) in
  match w_llm W (trace m ++ [ev_now; ev_node "planner"]) input with
  | inl _ => calls = [input]
  | inr _ =>
      let found :=
        match w_search W
                (trace m ++ [ev_now; ev_node "planner"; ev_llm input;
                             ev_node "searcher"])
                query with
        | inr raw => format_results raw
        | inl _ => []
        end in
      (Forall summarizable (take 3 found) →
       ∃ prompt, calls = [input; [HumanMessage prompt]])
      ∧ (¬ Forall summarizable (take 3 found) → calls = [input])
  end.
Proof.
  intros input calls. subst calls.
  rewrite research_unfold, workflow_invoke_steps.
  set (threadId := "research_" +:+ _).
  destruct (w_llm W _ _) as [e|plan] eqn:Hllm.
  - rewrite (planner_raises W _ query threadId (log_events m [ev_now]) e).
    2:{ cbn [trace log_events]. by rewrite <- app_assoc. }
    cbn [snd]. unfold new_events, log_events; cbn [trace].
    rewrite <- app_assoc, drop_app_length. done.
  - destruct (first_three_steps W query threadId (log_events m [ev_now]) plan)
      as (s3 & evs & -> & _ & Hcalls & _ & Hfound).
    { cbn [trace log_events]. by rewrite <- app_assoc. }
    cbn [trace log_events] in Hfound. rewrite <- app_assoc in Hfound.
    cbn [app] in Hfound. fold input in Hfound. cbv zeta. rewrite <- Hfound.
    split.
    + intros Hall. rewrite report_generator_run by exact Hall.
      eexists.
      destruct (w_llm W _ [HumanMessage _]) as [e|text];
        cbn [snd]; unfold new_events, checkpointed, log_events; cbn [trace];
        rewrite <- !app_assoc; rewrite drop_app_length;
        rewrite !llm_calls_app, Hcalls; reflexivity.
    + intros Hnot.
      match goal with |- context [report_generator _ _ _ s3 ?m3] =>
        destruct (report_generator_stops W json_dumps template_format s3 m3 Hnot)
          as [e ->]
      end.
      cbn [snd]. unfold new_events, log_events; cbn [trace].
      rewrite <- !app_assoc; rewrite drop_app_length.
      rewrite !llm_calls_app, Hcalls. done.
Qed.

Lemma research_model_calls_witness :
  (∃ prompt,
     llm_calls (new_events Sample.fresh
                  (research Sample.healthy Sample.dumps Sample.format "q"
                     Sample.fresh).2)
     = [[SystemMessage planner_instructions; HumanMessage "q"];
        [HumanMessage prompt]])
  ∧ llm_calls (new_events Sample.fresh
                 (research Sample.null_content Sample.dumps Sample.format "q"
                    Sample.fresh).2)
    = [[SystemMessage planner_instructions; HumanMessage "q"]].
Proof.
  split.
  - apply (research_model_calls Sample.healthy Sample.dumps Sample.format "q"
             Sample.fresh).
    repeat constructor; first [by eexists | eexists _, _; split; reflexivity].
  - apply (research_model_calls Sample.null_content Sample.dumps Sample.format "q"
             Sample.fresh).
    intros Hall. apply Forall_inv in Hall as [_ (body & part & Hbody & Hpart)].
    vm_compute in Hbody. injection Hbody as <-. discriminate Hpart.
Defined.
